(** * A shallow embedding of [src/tools/openrouter_config.py]

    The module is a thin client of a chat-completion HTTP API: it reads its
    credentials from the environment when it is imported, posts one request
    per call ([call_openrouter_api]) and wraps that call in a function
    decorated with [backoff.on_exception] ([get_chat_completion]).

    Python code runs here in a state-and-exception monad over a [world]
    that holds what the module can observe or change: the process
    environment, the requests handed to the HTTP transport, a clock and the
    records emitted on the [api_calls] logger.  The transport itself (what
    [requests.post] answers) is a parameter of the development, as a mocked
    transport is in a test.

    The logging set-up of lines 10-50 is taken as done: the [api_calls]
    logger has its handlers and each call of [logger.debug], [info],
    [warning] or [error] appends one record.  What is raised is either an
    instance of [Exception], the class that every handler of the module
    names, or an exception outside it ([KeyboardInterrupt], [SystemExit]),
    which a transport or a file-system call may raise as well. *)

From Stdlib Require Import ZArith Ascii String List Bool Lia.
From stdpp Require Import base option strings gmap.
Import ListNotations.

Local Open Scope string_scope.
Local Open Scope list_scope.
Local Open Scope Z_scope.

(** ** Python values *)

#[local] Set Warnings "-register-all".

(** The objects that travel through the module: what [json.loads] can
    produce and what a caller passes as [messages], [model] and
    [temperature].  A [str] is a [string] (one [ascii] per character), a
    [float] is the binary fraction [m * 2^e], a [dict] keeps its items in
    insertion order and its keys are strings, as in a JSON object. *)
Inductive pyobj : Type :=
| PNone
| PBool (b : bool)
| PInt (n : Z)
| PFloat (m e : Z)
| PStr (s : string)
| PList (xs : list pyobj)
| PDict (items : list (string * pyobj)).

(** Instances of [Exception] that the module can meet.  [RaisedError cls
    msg] stands for any other instance of [Exception], of class [cls],
    whose [str()] is [msg]: what [requests.post] raises ([ConnectionError],
    [Timeout], ...), what [response.json()] raises on a body that is not
    JSON, or whatever instance of [Exception] a mocked transport decides to
    raise. *)
Inductive exn : Type :=
| KeyError (key : pyobj)
| IndexError (msg : string)
| TypeError (msg : string)
| ValueError (msg : string)
| RaisedError (cls : string) (msg : string).

(** The exceptions that derive from [BaseException] without deriving from
    [Exception].  No handler of the module names them, so that none
    catches them. *)
Inductive interrupt : Type :=
| KeyboardInterrupt
| SystemExit (code : pyobj)
| GeneratorExit.

(** The outcome of evaluating a Python expression or statement: a value, an
    instance of [Exception] raised, or an exception outside [Exception]
    raised. *)
Inductive result (A : Type) : Type :=
| Ret (a : A)
| Raise (e : exn)
| Interrupt (i : interrupt).
Arguments Ret {A} a.
Arguments Raise {A} e.
Arguments Interrupt {A} i.

(** [type(o).__name__]. *)
Definition type_name (o : pyobj) : string :=
  match o with
  | PNone => "NoneType"
  | PBool _ => "bool"
  | PInt _ => "int"
  | PFloat _ _ => "float"
  | PStr _ => "str"
  | PList _ => "list"
  | PDict _ => "dict"
  end.

(** The message of the [TypeError] of [o[...]] on an object without
    items. *)
Definition not_subscriptable (o : pyobj) : string :=
  ("'" ++ type_name o ++ "' object is not subscriptable")%string.

(** Truth value testing, [bool(o)]. *)
Definition truthy (o : pyobj) : bool :=
  match o with
  | PNone => false
  | PBool b => b
  | PInt n => negb (n =? 0)
  | PFloat m _ => negb (m =? 0)
  | PStr s => match s with EmptyString => false | String _ _ => true end
  | PList xs => match xs with [] => false | _ :: _ => true end
  | PDict items => match items with [] => false | _ :: _ => true end
  end.

(** [a or b]. *)
Definition py_or (a b : pyobj) : pyobj := if truthy a then a else b.

(** [o is None]. *)
Definition is_None (o : pyobj) : bool :=
  match o with PNone => true | _ => false end.

(** Item lookup in a [dict].  The keys of a [dict] are distinct, so that
    the first item found is the only one. *)
Fixpoint dict_get (items : list (string * pyobj)) (k : string) : option pyobj :=
  match items with
  | [] => None
  | (k', v) :: rest => if String.eqb k' k then Some v else dict_get rest k
  end.

(** [o[k]] for a string key [k]. *)
Definition getitem_str (o : pyobj) (k : string) : result pyobj :=
  match o with
  | PDict items =>
      match dict_get items k with
      | Some v => Ret v
      | None => Raise (KeyError (PStr k))
      end
  | PList _ => Raise (TypeError "list indices must be integers or slices, not str")
  | PStr _ => Raise (TypeError "string indices must be integers, not 'str'")
  | _ => Raise (TypeError (not_subscriptable o))
  end.

(** Python's index normalisation: a negative index counts from the end. *)
Definition norm_index (i : Z) (len : nat) : option nat :=
  let j := if i <? 0 then i + Z.of_nat len else i in
  if (0 <=? j) && (j <? Z.of_nat len) then Some (Z.to_nat j) else None.

(** [o[i]] for an integer index [i]. *)
Definition getitem_int (o : pyobj) (i : Z) : result pyobj :=
  match o with
  | PList xs =>
      match norm_index i (List.length xs) with
      | Some j =>
          match nth_error xs j with
          | Some v => Ret v
          | None => Raise (IndexError "list index out of range")
          end
      | None => Raise (IndexError "list index out of range")
      end
  | PStr s =>
      match norm_index i (String.length s) with
      | Some j =>
          match String.get j s with
          | Some c => Ret (PStr (String c EmptyString))
          | None => Raise (IndexError "string index out of range")
          end
      | None => Raise (IndexError "string index out of range")
      end
  | PDict _ => Raise (KeyError (PInt i))
  | _ => Raise (TypeError (not_subscriptable o))
  end.

(** [len(o)]. *)
Definition py_len (o : pyobj) : result nat :=
  match o with
  | PStr s => Ret (String.length s)
  | PList xs => Ret (List.length xs)
  | PDict items => Ret (List.length items)
  | _ => Raise (TypeError ("object of type '" ++ type_name o ++ "' has no len()")%string)
  end.

(** [o[:n]]. *)
Definition slice_to (o : pyobj) (n : nat) : result pyobj :=
  match o with
  | PStr s => Ret (PStr (String.substring 0 n s))
  | PList xs => Ret (PList (firstn n xs))
  | PDict _ => Raise (TypeError "unhashable type: 'slice'")
  | _ => Raise (TypeError (not_subscriptable o))
  end.

(** ** Logging, requests and the world *)

Inductive level : Type := DEBUG | INFO | WARNING | ERROR.

(** One constructor per format string of the source; the arguments are the
    interpolated values.  [ellipsis] tells whether the line ends in the
    three dots of the truncated alternative. *)
Inductive log_msg : Type :=
| MsgEnvLoaded (path : string)            (* "... 已加载环境变量: {env_path}" *)
| MsgEnvFileMissing (path : string)       (* "... 未找到环境变量文件: {env_path}" *)
| MsgApiKeyMissing                        (* "... 未找到 OPENROUTER_API_KEY 环境变量" *)
| MsgConfigInitialised                    (* "... OpenRouter 配置初始化成功" *)
| MsgCallingApi                           (* "... 正在调用 OpenRouter API..." *)
| MsgRequestContent (shown : string) (ellipsis : bool)   (* "请求内容: ..." *)
| MsgApiCallSucceeded                     (* "... API 调用成功" *)
| MsgApiCallFailed (status : Z) (body : string)
                                          (* "... API 调用失败: {status_code} - {text}" *)
| MsgApiCallException (what : string)     (* "... API 调用异常: {str(e)}" *)
| MsgEmptyResponse                        (* "... API 返回空响应" *)
| MsgGotResponse                          (* "... 成功获取响应" *)
| MsgResponseContent (shown : string) (ellipsis : bool)  (* "响应内容: ..." *)
| MsgCompletionError (what : string).     (* "... get_chat_completion 发生错误: {str(e)}" *)

Definition log_record : Type := level * log_msg.

(** The arguments of [requests.post(url, headers=headers, json=payload)]. *)
Record request : Type := mkRequest {
  req_url : string;
  req_headers : list (string * string);
  req_json : pyobj
}.

(** A [requests.Response] as far as the module reads it: [status_code],
    [text] and the outcome of [json()]. *)
Record response : Type := mkResponse {
  status_code : Z;
  text : string;
  json : result pyobj
}.

(** What one call of the transport does: it takes [took] units of time and
    either answers or raises. *)
Record reply : Type := mkReply {
  took : Z;
  outcome : result response
}.

Record world : Type := mkWorld {
  os_environ : gmap string string;
  sent : list request;
  clock : Z;
  log : list log_record
}.

(** The module's globals once the import has succeeded. *)
Record config : Type := mkConfig {
  api_key : string;
  default_model : string
}.

(** ** The monad *)

Definition M (A : Type) : Type := world -> result A * world.

Definition ret {A} (a : A) : M A := fun w => (Ret a, w).

Definition raise {A} (e : exn) : M A := fun w => (Raise e, w).

Definition bind {A B} (m : M A) (k : A -> M B) : M B :=
  fun w =>
    match m w with
    | (Ret a, w1) => k a w1
    | (Raise e, w1) => (Raise e, w1)
    | (Interrupt i, w1) => (Interrupt i, w1)
    end.

(** [try: m  except Exception as e: h e].  What [m] did to the world
    before it raised stays done.  The handler names [Exception]: an
    exception outside it goes through. *)
Definition try_except {A} (m : M A) (h : exn -> M A) : M A :=
  fun w =>
    match m w with
    | (Ret a, w1) => (Ret a, w1)
    | (Raise e, w1) => h e w1
    | (Interrupt i, w1) => (Interrupt i, w1)
    end.

(** An expression that may raise but leaves the world alone. *)
Definition lift {A} (r : result A) : M A := fun w => (r, w).

Declare Scope py_scope.
Delimit Scope py_scope with py.
Notation "x <- m ;; k" := (bind m (fun x => k))
  (at level 100, m at next level, right associativity) : py_scope.
Notation "m ;; k" := (bind m (fun _ => k))
  (at level 100, right associativity) : py_scope.
Local Open Scope py_scope.

(** [logger.debug / info / warning / error]. *)
Definition logger (lv : level) (m : log_msg) : M unit :=
  fun w =>
    (Ret tt, {| os_environ := os_environ w; sent := sent w;
                clock := clock w; log := log w ++ [(lv, m)] |}).

(** [time.sleep(seconds)]. *)
Definition sleep (seconds : Z) : M unit :=
  fun w =>
    (Ret tt, {| os_environ := os_environ w; sent := sent w;
                clock := clock w + seconds; log := log w |}).

(** ** The module *)

Section Client.

(** What the Python runtime and the outside world supply. *)

(** [repr(o)] of an object that is not a [str]. *)
Variable py_repr : pyobj -> string.

(** The transport behind [requests.post]: its answer to the [n]-th call
    (counted from 0) carrying request [r]. *)
Variable post : nat -> request -> reply.

(** The random source of [backoff.full_jitter]: the [n]-th draw. *)
Variable rand : nat -> Z.

(** [env_path], the [.env] file next to the project root. *)
Variable env_path : string.

(** [str(o)], which is also how an f-string renders [o]. *)
Definition py_str (o : pyobj) : string :=
  match o with
  | PStr s => s
  | _ => py_repr o
  end.

(** [str(e)] for an exception. *)
Definition exn_str (e : exn) : string :=
  match e with
  | KeyError k => py_repr k
  | IndexError msg => msg
  | TypeError msg => msg
  | ValueError msg => msg
  | RaisedError _ msg => msg
  end.

(** *** Import-time configuration (lines 73-93) *)

(** [load_dotenv(env_path, override=True)]: every binding of the file is
    written to [os.environ], replacing a variable that is already set. *)
Definition load_dotenv (file : gmap string string) : M unit :=
  fun w =>
    (Ret tt, {| os_environ := file ∪ os_environ w; sent := sent w;
                clock := clock w; log := log w |}).

(** [os.getenv(name)]. *)
Definition getenv (name : string) : M (option string) :=
  fun w => (Ret (os_environ w !! name), w).

(** [not api_key], for the [Optional[str]] that [os.getenv] returns. *)
Definition not_str (o : option string) : bool :=
  match o with
  | None => true
  | Some EmptyString => true
  | Some (String _ _) => false
  end.

(** The configuration part of the module body.  [dotenv] is the content
    of the file at [env_path], [None] when it does not exist.  The
    result is the pair of globals [api_key], [default_model]. *)
Definition init_module (dotenv : option (gmap string string)) : M config :=
  (match dotenv with
   | Some file =>
       load_dotenv file ;;
       logger INFO (MsgEnvLoaded env_path)
   | None =>
       logger WARNING (MsgEnvFileMissing env_path)
   end) ;;
  key <- getenv "OPENROUTER_API_KEY" ;;
  model <- getenv "OPENROUTER_MODEL" ;;
  let default_model := default "deepseek/deepseek-chat" model in
  if not_str key then
    logger ERROR MsgApiKeyMissing ;;
    raise (ValueError "OPENROUTER_API_KEY not found in environment variables")
  else
    logger INFO MsgConfigInitialised ;;
    ret {| api_key := default "" key; default_model := default_model |}.

(** *** [call_openrouter_api] (lines 95-124) *)

Variable cfg : config.

Definition completions_url : string :=
  "https://openrouter.ai/api/v1/chat/completions".

(** The [url], [headers] and [payload] locals of [call_openrouter_api]. *)
Definition completion_request (messages model temperature : pyobj) : request :=
  {| req_url := completions_url;
     req_headers := [("Authorization", ("Bearer " ++ api_key cfg)%string)];
     req_json := PDict [("model", py_or model (PStr (default_model cfg)));
                        ("messages", messages);
                        ("temperature", temperature)] |}.

(** [requests.post]: the request reaches the transport, which takes its
    time and answers or raises. *)
Definition requests_post (r : request) : M response :=
  fun w =>
    let rep := post (List.length (sent w)) r in
    (outcome rep, {| os_environ := os_environ w; sent := sent w ++ [r];
                     clock := clock w + took rep; log := log w |}).

(** The first 500 characters and the dots when [s] is longer than 500
    characters, [s] itself otherwise. *)
Definition preview (s : string) : string * bool :=
  if (500 <? String.length s)%nat
  then (String.substring 0 500 s, true)
  else (s, false).

(** The body of the [try] of [call_openrouter_api]. *)
Definition call_openrouter_api_try (messages model temperature : pyobj) : M pyobj :=
  logger INFO MsgCallingApi ;;
  logger INFO (let '(shown, dots) := preview (py_str messages) in
               MsgRequestContent shown dots) ;;
  response <- requests_post (completion_request messages model temperature) ;;
  if status_code response =? 200 then
    data <- lift (json response) ;;
    logger INFO MsgApiCallSucceeded ;;
    ret data
  else
    logger ERROR (MsgApiCallFailed (status_code response) (text response)) ;;
    ret PNone.

Definition call_openrouter_api (messages model temperature : pyobj) : M pyobj :=
  try_except (call_openrouter_api_try messages model temperature)
    (fun e =>
       logger ERROR (MsgApiCallException (exn_str e)) ;;
       raise e).

(** *** The retry decorator (lines 126-131) *)

(** Modelled from the spec: the sources do not hold the [backoff]
    package.  [on_exception] is
    [@backoff.on_exception(backoff.expo, Exception, max_tries, max_time)]
    as section 4.3 describes it: the target runs; a clean return is
    handed back at once; an exception is retried after an exponentially
    growing, jittered pause, until the attempt count reaches [max_tries]
    or the time elapsed since the first attempt reaches [max_time], and
    then the last exception is raised again.  The decorator names
    [Exception]: an exception outside it leaves at once. *)

(** [backoff.expo]: the pause ceiling before retry [n + 1]. *)
Definition expo (n : nat) : Z := 2 ^ Z.of_nat n.

(** [backoff.full_jitter]: a draw between 0 and [value]. *)
Definition full_jitter (n : nat) (value : Z) : Z :=
  Z.max 0 (Z.min value (rand n)).

(** The [while True] loop of the decorator.  [tries] attempts are behind
    us, [start] is the clock at the first one.  [fuel] bounds the number
    of iterations; [None] means that it ran out. *)
Fixpoint retry {A} (max_tries : nat) (max_time : Z) (target : M A)
         (start : Z) (fuel tries : nat) (w : world)
  : option (result A * world) :=
  match fuel with
  | O => None
  | S fuel' =>
      let tries := S tries in
      let elapsed := clock w - start in
      match target w with
      | (Ret a, w1) => Some (Ret a, w1)
      | (Raise e, w1) =>
          if (tries =? max_tries)%nat || (max_time <=? elapsed)
          then Some (Raise e, w1)
          else
            let seconds :=
              Z.min (full_jitter tries (expo (pred tries))) (max_time - elapsed) in
            retry max_tries max_time target start fuel' tries
                  (snd (sleep seconds w1))
      | (Interrupt i, w1) => Some (Interrupt i, w1)
      end
  end.

Definition on_exception {A} (max_tries : nat) (max_time : Z) (target : M A)
           (w : world) : option (result A * world) :=
  retry max_tries max_time target (clock w) max_tries 0 w.

(** *** [get_chat_completion] (lines 126-154) *)

(** [response["choices"][0]["message"]["content"]]. *)
Definition extract_content (response : pyobj) : result pyobj :=
  match getitem_str response "choices" with
  | Raise e => Raise e
  | Interrupt i => Interrupt i
  | Ret choices =>
      match getitem_int choices 0 with
      | Raise e => Raise e
      | Interrupt i => Interrupt i
      | Ret choice =>
          match getitem_str choice "message" with
          | Raise e => Raise e
          | Interrupt i => Interrupt i
          | Ret message => getitem_str message "content"
          end
      end
  end.

(** The argument of [logger.debug] at lines 147-148. *)
Definition content_preview (content : pyobj) : result log_msg :=
  match py_len content with
  | Raise e => Raise e
  | Interrupt i => Interrupt i
  | Ret n =>
      if (500 <? n)%nat then
        match slice_to content 500 with
        | Raise e => Raise e
        | Interrupt i => Interrupt i
        | Ret head => Ret (MsgResponseContent (py_str head) true)
        end
      else Ret (MsgResponseContent (py_str content) false)
  end.

(** The body of the [try] of [get_chat_completion]. *)
Definition get_chat_completion_try (messages model temperature : pyobj) : M pyobj :=
  response <- call_openrouter_api messages model temperature ;;
  if is_None response then
    logger ERROR MsgEmptyResponse ;;
    ret PNone
  else
    content <- lift (extract_content response) ;;
    logger INFO MsgGotResponse ;;
    line <- lift (content_preview content) ;;
    logger DEBUG line ;;
    ret content.

(** The function as written, before the decorator is applied. *)
Definition get_chat_completion_body (messages model temperature : pyobj) : M pyobj :=
  try_except (get_chat_completion_try messages model temperature)
    (fun e =>
       logger ERROR (MsgCompletionError (exn_str e)) ;;
       ret PNone).

(** The name [get_chat_completion] as callers see it: the decorated
    function, with [max_tries=5] and [max_time=300]. *)
Definition get_chat_completion (messages model temperature : pyobj)
  : world -> option (result pyobj * world) :=
  on_exception 5 300 (get_chat_completion_body messages model temperature).

End Client.

(** ** The vocabulary of the specification *)

(** The field of interest of a completion response, read as a JSON path:
    the [content] member of the [message] member of the first element of
    the [choices] array of the body. *)
Definition nested_content (body : pyobj) : option pyobj :=
  match body with
  | PDict top =>
      match dict_get top "choices" with
      | Some (PList (PDict choice :: _)) =>
          match dict_get choice "message" with
          | Some (PDict message) => dict_get message "content"
          | _ => None
          end
      | _ => None
      end
  | _ => None
  end.

(** The HTTP call fails with exception [e]: [requests.post] raises it, or
    the answer has status 200 and reading its body as JSON raises it. *)
Inductive http_raises (rep : reply) (e : exn) : Prop :=
| post_raised :
    outcome rep = Raise e -> http_raises rep e
| body_malformed (resp : response) :
    outcome rep = Ret resp -> status_code resp = 200 ->
    json resp = Raise e -> http_raises rep e.

(** The exception outside [Exception] that cuts the HTTP call short, if
    any: [requests.post] raises it, or the answer has status 200 and
    reading its body as JSON raises it. *)
Definition interrupted_by (rep : reply) : option interrupt :=
  match outcome rep with
  | Interrupt i => Some i
  | Raise _ => None
  | Ret resp =>
      if status_code resp =? 200 then
        match json resp with
        | Interrupt i => Some i
        | _ => None
        end
      else None
  end.

(** The [model] member of the JSON body of a request. *)
Definition model_field (r : request) : option pyobj :=
  match req_json r with
  | PDict items => dict_get items "model"
  | _ => None
  end.

(** The value of the [Authorization] header of a request. *)
Definition authorization (r : request) : option string :=
  snd <$> List.find (fun h => String.eqb (fst h) "Authorization") (req_headers r).

(** The environment that line 86 reads: [os.environ] once the [.env] file,
    when there is one, has been loaded over it. *)
Definition environ_at_startup (dotenv : option (gmap string string)) (w : world)
  : gmap string string :=
  match dotenv with
  | Some file => file ∪ os_environ w
  | None => os_environ w
  end.

(** ** Test fixtures *)

Module Fixtures.

Definition fresh : world :=
  {| os_environ := ∅; sent := []; clock := 0; log := [] |}.

Definition cfg : config :=
  {| api_key := "sk-test"; default_model := "deepseek/deepseek-chat" |}.

(** A stand-in for [repr], enough to run the fixtures. *)
Definition repr (o : pyobj) : string :=
  match o with
  | PNone => "None"
  | PBool true => "True"
  | PBool false => "False"
  | PStr s => ("'" ++ s ++ "'")%string
  | PList _ => "[...]"
  | PDict _ => "{...}"
  | _ => "<number>"
  end.

Definition no_jitter (n : nat) : Z := 0.

Definition messages : pyobj :=
  PList [PDict [("role", PStr "user"); ("content", PStr "ping")]].

(** The default [temperature=0.7], as the double nearest to it. *)
Definition temperature : pyobj := PFloat 6305039478318694 (-53).

Definition completion (content : pyobj) : pyobj :=
  PDict [("id", PStr "gen-1");
         ("choices",
          PList [PDict [("index", PInt 0);
                        ("message", PDict [("role", PStr "assistant");
                                           ("content", content)])]])].

Definition ok (body : pyobj) : reply :=
  {| took := 1;
     outcome := Ret {| status_code := 200; text := "<body>"; json := Ret body |} |}.

Definition status (code : Z) (body : string) : reply :=
  {| took := 1;
     outcome := Ret {| status_code := code; text := body;
                       json := Raise (RaisedError "JSONDecodeError" "Expecting value") |} |}.

Definition fails (e : exn) : reply := {| took := 1; outcome := Raise e |}.

Definition connection_error : exn :=
  RaisedError "ConnectionError" "Connection reset by peer".

(** Mocked transports. *)
Definition always (rep : reply) : nat -> request -> reply := fun _ _ => rep.

(** Raises on the first [n] calls, answers [rep] from then on. *)
Definition flaky (n : nat) (e : exn) (rep : reply) : nat -> request -> reply :=
  fun i _ => if (i <? n)%nat then fails e else rep.

Definition server_error : nat -> request -> reply :=
  always (status 500 "Internal Server Error").

Definition answers_pong : nat -> request -> reply :=
  always (ok (completion (PStr "pong"))).

(** A 200 answer without [choices]. *)
Definition error_body : pyobj :=
  PDict [("error", PDict [("code", PInt 429); ("message", PStr "rate limited")])].

Definition answers_error_body : nat -> request -> reply := always (ok error_body).

Definition unreachable : nat -> request -> reply := always (fails connection_error).

(** A transport whose call is cut short by Ctrl-C. *)
Definition interrupted : nat -> request -> reply :=
  always {| took := 1; outcome := Interrupt KeyboardInterrupt |}.

End Fixtures.

(** ** The logging set-up (lines 10-50) *)

Module Logging.

(** Where a handler writes: [logging.FileHandler(path, encoding='utf-8',
    mode='a')] or [logging.StreamHandler()]. *)
Inductive sink : Type :=
| FileSink (path : string)
| ConsoleSink.

(** A handler: its sink, its level and its formatter ([None] while no
    formatter has been set). *)
Record handler : Type := mkHandler {
  h_sink : sink;
  h_level : level;
  h_format : option string
}.

#[local] Instance level_eq_dec : EqDecision level.
Proof. solve_decision. Defined.

#[local] Instance sink_eq_dec : EqDecision sink.
Proof. solve_decision. Defined.

#[local] Instance handler_eq_dec : EqDecision handler.
Proof. solve_decision. Defined.

(** What the set-up works on: the [api_calls] logger (level and handlers),
    the standard output and the records emitted on the logger. *)
Record state : Type := mkState {
  lg_level : option level;
  lg_handlers : list handler;
  stdout : list string;
  lg_records : list (level * string)
}.

(** [logger.removeHandler(h)]: the first occurrence goes, if there is
    one. *)
Fixpoint removeHandler (h : handler) (hs : list handler) : list handler :=
  match hs with
  | [] => []
  | h' :: rest => if decide (h' = h) then rest else h' :: removeHandler h rest
  end.

(** [logger.addHandler(h)]: appended unless already there. *)
Definition addHandler (h : handler) (hs : list handler) : list handler :=
  if decide (h ∈ hs) then hs else hs ++ [h].

(** The loop of lines 15-16: it walks a copy of the list and removes each
    element from the live list. *)
Definition remove_all_handlers (hs : list handler) : list handler :=
  fold_left (fun live h => removeHandler h live) hs hs.

Definition starts_with_sep (s : string) : bool :=
  match s with
  | String c _ => Ascii.eqb c "/"%char
  | EmptyString => false
  end.

Fixpoint ends_with_sep (s : string) : bool :=
  match s with
  | EmptyString => false
  | String c EmptyString => Ascii.eqb c "/"%char
  | String _ rest => ends_with_sep rest
  end.

(** [os.path.join(a, b)] on a POSIX system. *)
Definition path_join (a b : string) : string :=
  if starts_with_sep b then b
  else if String.eqb a "" || ends_with_sep a then (a ++ b)%string
  else (a ++ "/" ++ b)%string.

Definition log_format : string :=
  "%(asctime)s - %(name)s - %(levelname)s - %(message)s".

Definition print (line : string) (st : state) : state :=
  {| lg_level := lg_level st; lg_handlers := lg_handlers st;
     stdout := stdout st ++ [line]; lg_records := lg_records st |}.

Definition emit (lv : level) (msg : string) (st : state) : state :=
  {| lg_level := lg_level st; lg_handlers := lg_handlers st;
     stdout := stdout st; lg_records := lg_records st ++ [(lv, msg)] |}.

Section Setup.

(** [repr], as in the client. *)
Variable py_repr : pyobj -> string.

(** The three [dirname]s of the module's own path. *)
Variable project_root : string.

(** [time.strftime("%Y%m%d")]. *)
Variable today : string.

(** What [os.makedirs(log_dir, exist_ok=True)] does for a directory. *)
Variable makedirs : string -> result unit.

(** What opening the log file for appending does. *)
Variable open_log : string -> result unit.

Definition log_dir : string := path_join project_root "logs".

Definition log_file : string :=
  path_join log_dir ("api_calls_" ++ today ++ ".log")%string.

(** Lines 34-50, with [file_handler] bound to a handler or left unbound:
    reading it unbound at line 41 is a [NameError]. *)
Definition install (file_handler : option handler) (st : state)
  : result unit * state :=
  let console_handler :=
    {| h_sink := ConsoleSink; h_level := DEBUG; h_format := None |} in
  match file_handler with
  | None =>
      (Raise (RaisedError "NameError" "name 'file_handler' is not defined"), st)
  | Some file_handler =>
      let file_handler :=
        {| h_sink := h_sink file_handler; h_level := h_level file_handler;
           h_format := Some log_format |} in
      let console_handler :=
        {| h_sink := h_sink console_handler; h_level := h_level console_handler;
           h_format := Some log_format |} in
      let st :=
        {| lg_level := lg_level st;
           lg_handlers :=
             addHandler console_handler (addHandler file_handler (lg_handlers st));
           stdout := stdout st; lg_records := lg_records st |} in
      let st := emit DEBUG "Logger initialization completed" st in
      let st := emit INFO "API logging system started" st in
      (Ret tt, st)
  end.

(** Lines 11-50.  The local [file_handler] is bound only when the
    [FileHandler] could be created.  The [except] of line 31 names
    [Exception]; nothing guards [os.makedirs]. *)
Definition setup (st : state) : result unit * state :=
  let st := {| lg_level := Some DEBUG;
               lg_handlers := remove_all_handlers (lg_handlers st);
               stdout := stdout st; lg_records := lg_records st |} in
  match makedirs log_dir with
  | Raise e => (Raise e, st)
  | Interrupt i => (Interrupt i, st)
  | Ret _ =>
      let st := print ("Creating log file at: " ++ log_file)%string st in
      match open_log log_file with
      | Ret _ =>
          install (Some {| h_sink := FileSink log_file; h_level := DEBUG;
                           h_format := None |})
                  (print "Successfully created file handler" st)
      | Raise e =>
          install None
                  (print ("Error creating file handler: " ++ exn_str py_repr e)%string st)
      | Interrupt i => (Interrupt i, st)
      end
  end.

End Setup.

End Logging.

(** ** Several calls in a row *)

(** One call of [get_chat_completion] for each triple of arguments of a
    list, in order; the values returned are collected.  A call that raises
    ends the run. *)
Fixpoint run_calls (py_repr : pyobj -> string) (post : nat -> request -> reply)
         (rand : nat -> Z) (cfg : config)
         (calls : list (pyobj * pyobj * pyobj)) (w : world)
  : option (result (list pyobj) * world) :=
  match calls with
  | [] => Some (Ret [], w)
  | (messages, model, temperature) :: rest =>
      match get_chat_completion py_repr post rand cfg messages model temperature w with
      | None => None
      | Some (Raise e, w1) => Some (Raise e, w1)
      | Some (Interrupt i, w1) => Some (Interrupt i, w1)
      | Some (Ret v, w1) =>
          match run_calls py_repr post rand cfg rest w1 with
          | Some (Ret vs, w2) => Some (Ret (v :: vs), w2)
          | other => other
          end
      end
  end.

(** ** Properties *)

Section Properties.

Variable py_repr : pyobj -> string.
Variable post : nat -> request -> reply.
Variable rand : nat -> Z.
Variable cfg : config.

Local Abbreviation request_of := (completion_request cfg).
Local Abbreviation call_api := (call_openrouter_api py_repr post cfg).
Local Abbreviation body_of := (get_chat_completion_body py_repr post cfg).
Local Abbreviation completion_of := (get_chat_completion py_repr post rand cfg).
Local Abbreviation str := (exn_str py_repr).

(** The world after the transport has been called once with the request
    for [messages], [model], [temperature] and [records] have been
    logged. *)
Definition after_call (messages model temperature : pyobj)
           (records : list log_record) (w : world) : world :=
  let r := request_of messages model temperature in
  {| os_environ := os_environ w;
     sent := sent w ++ [r];
     clock := clock w + took (post (List.length (sent w)) r);
     log := log w ++ records |}.

(** The two lines logged before the request leaves. *)
Definition preamble (messages : pyobj) : list log_record :=
  [(INFO, MsgCallingApi);
   (INFO, let '(shown, dots) := preview (py_str py_repr messages) in
          MsgRequestContent shown dots)].

(** What one attempt ends with and logs, read off the reply of the
    transport. *)
Definition attempt_outcome (messages : pyobj) (rep : reply)
  : result pyobj * list log_record :=
  let failed e :=
    (Ret PNone, preamble messages ++ [(ERROR, MsgApiCallException (str e));
                                      (ERROR, MsgCompletionError (str e))]) in
  match outcome rep with
  | Raise e => failed e
  | Interrupt i => (Interrupt i, preamble messages)
  | Ret resp =>
      if status_code resp =? 200 then
        match json resp with
        | Raise e => failed e
        | Interrupt i => (Interrupt i, preamble messages)
        | Ret data =>
            if is_None data then
              (Ret PNone, preamble messages ++ [(INFO, MsgApiCallSucceeded);
                                                (ERROR, MsgEmptyResponse)])
            else
              match extract_content data with
              | Interrupt i =>
                  (Interrupt i, preamble messages ++ [(INFO, MsgApiCallSucceeded)])
              | Raise e =>
                  (Ret PNone, preamble messages
                                ++ [(INFO, MsgApiCallSucceeded);
                                    (ERROR, MsgCompletionError (str e))])
              | Ret content =>
                  match content_preview py_repr content with
                  | Interrupt i =>
                      (Interrupt i, preamble messages
                                      ++ [(INFO, MsgApiCallSucceeded);
                                          (INFO, MsgGotResponse)])
                  | Raise e =>
                      (Ret PNone, preamble messages
                                    ++ [(INFO, MsgApiCallSucceeded);
                                        (INFO, MsgGotResponse);
                                        (ERROR, MsgCompletionError (str e))])
                  | Ret line =>
                      (Ret content, preamble messages
                                      ++ [(INFO, MsgApiCallSucceeded);
                                          (INFO, MsgGotResponse);
                                          (DEBUG, line)])
                  end
              end
        end
      else
        (Ret PNone, preamble messages
                      ++ [(ERROR, MsgApiCallFailed (status_code resp) (text resp));
                          (ERROR, MsgEmptyResponse)])
  end.

Lemma call_api_post_raises messages model temperature w e :
  outcome (post (List.length (sent w)) (request_of messages model temperature)) = Raise e ->
  call_api messages model temperature w =
    (Raise e,
     after_call messages model temperature
       (preamble messages ++ [(ERROR, MsgApiCallException (str e))]) w).
Proof.
  intros H.
  unfold call_openrouter_api, call_openrouter_api_try, try_except, bind,
    requests_post, logger, after_call, preamble; simpl.
  rewrite H; simpl. rewrite <- !app_assoc. reflexivity.
Qed.

Lemma call_api_json_raises messages model temperature w resp e :
  outcome (post (List.length (sent w)) (request_of messages model temperature)) = Ret resp ->
  status_code resp = 200 ->
  json resp = Raise e ->
  call_api messages model temperature w =
    (Raise e,
     after_call messages model temperature
       (preamble messages ++ [(ERROR, MsgApiCallException (str e))]) w).
Proof.
  intros H H200 Hjson.
  unfold call_openrouter_api, call_openrouter_api_try, try_except, bind,
    requests_post, logger, lift, after_call, preamble; simpl.
  rewrite H; simpl. rewrite H200, Hjson; simpl.
  rewrite <- !app_assoc. reflexivity.
Qed.

Lemma call_api_ok messages model temperature w resp data :
  outcome (post (List.length (sent w)) (request_of messages model temperature)) = Ret resp ->
  status_code resp = 200 ->
  json resp = Ret data ->
  call_api messages model temperature w =
    (Ret data,
     after_call messages model temperature
       (preamble messages ++ [(INFO, MsgApiCallSucceeded)]) w).
Proof.
  intros H H200 Hjson.
  unfold call_openrouter_api, call_openrouter_api_try, try_except, bind,
    requests_post, logger, lift, ret, after_call, preamble; simpl.
  rewrite H; simpl. rewrite H200, Hjson; simpl.
  rewrite <- !app_assoc. reflexivity.
Qed.

Lemma call_api_other_status messages model temperature w resp :
  outcome (post (List.length (sent w)) (request_of messages model temperature)) = Ret resp ->
  status_code resp <> 200 ->
  call_api messages model temperature w =
    (Ret PNone,
     after_call messages model temperature
       (preamble messages
          ++ [(ERROR, MsgApiCallFailed (status_code resp) (text resp))]) w).
Proof.
  intros H Hne.
  unfold call_openrouter_api, call_openrouter_api_try, try_except, bind,
    requests_post, logger, lift, ret, after_call, preamble; simpl.
  rewrite H; simpl.
  destruct (Z.eqb_spec (status_code resp) 200) as [Heq | _]; [contradiction |].
  simpl. rewrite <- !app_assoc. reflexivity.
Qed.

(** Logging one more record after a call. *)
Lemma logger_after_call messages model temperature records lv m w :
  logger lv m (after_call messages model temperature records w) =
    (Ret tt, after_call messages model temperature (records ++ [(lv, m)]) w).
Proof.
  unfold logger, after_call; simpl. rewrite <- app_assoc. reflexivity.
Qed.

Lemma call_api_post_interrupted messages model temperature w i :
  outcome (post (List.length (sent w)) (request_of messages model temperature))
    = Interrupt i ->
  call_api messages model temperature w =
    (Interrupt i, after_call messages model temperature (preamble messages) w).
Proof.
  intros H.
  unfold call_openrouter_api, call_openrouter_api_try, try_except, bind,
    requests_post, logger, after_call, preamble; simpl.
  rewrite H; simpl. rewrite <- !app_assoc. reflexivity.
Qed.

Lemma call_api_json_interrupted messages model temperature w resp i :
  outcome (post (List.length (sent w)) (request_of messages model temperature)) = Ret resp ->
  status_code resp = 200 ->
  json resp = Interrupt i ->
  call_api messages model temperature w =
    (Interrupt i, after_call messages model temperature (preamble messages) w).
Proof.
  intros H H200 Hjson.
  unfold call_openrouter_api, call_openrouter_api_try, try_except, bind,
    requests_post, logger, lift, after_call, preamble; simpl.
  rewrite H; simpl. rewrite H200, Hjson; simpl.
  rewrite <- !app_assoc. reflexivity.
Qed.

(** [call_openrouter_api] raises an instance of [Exception] exactly when
    the HTTP call does. *)
Lemma call_api_cases messages model temperature w :
  let rep := post (List.length (sent w)) (request_of messages model temperature) in
  (exists e, http_raises rep e /\
     call_api messages model temperature w =
       (Raise e,
        after_call messages model temperature
          (preamble messages ++ [(ERROR, MsgApiCallException (str e))]) w))
  \/
  (exists r records,
     (forall e, r <> Raise e) /\
     (forall e, ~ http_raises rep e) /\
     call_api messages model temperature w =
       (r, after_call messages model temperature records w)).
Proof.
  intros rep.
  destruct (outcome rep) as [resp | e | i] eqn:Hout.
  - destruct (Z.eq_dec (status_code resp) 200) as [H200 | Hne].
    + destruct (json resp) as [data | e | i] eqn:Hjson.
      * right. exists (Ret data). eexists. split; [discriminate |]. split.
        -- intros e [Hp | resp' Hp _ Hj]; [congruence |].
           assert (resp' = resp) by congruence. subst. congruence.
        -- eapply call_api_ok; eauto.
      * left. exists e. split.
        -- eapply body_malformed; eauto.
        -- eapply call_api_json_raises; eauto.
      * right. exists (Interrupt i). eexists. split; [discriminate |]. split.
        -- intros e [Hp | resp' Hp _ Hj]; [congruence |].
           assert (resp' = resp) by congruence. subst. congruence.
        -- eapply call_api_json_interrupted; eauto.
    + right. exists (Ret PNone). eexists. split; [discriminate |]. split.
      * intros e [Hp | resp' Hp Hs _]; [congruence |].
        assert (resp' = resp) by congruence. subst. contradiction.
      * eapply call_api_other_status; eauto.
  - left. exists e. split.
    + apply post_raised; assumption.
    + apply call_api_post_raises; assumption.
  - right. exists (Interrupt i). eexists. split; [discriminate |]. split.
    + intros e [Hp | resp' Hp _ _]; congruence.
    + apply call_api_post_interrupted; assumption.
Qed.

(** *** Reading the content out of a body *)

Lemma getitem_int_0_list x xs : getitem_int (PList (x :: xs)) 0 = Ret x.
Proof. reflexivity. Qed.

Lemma getitem_str_not_dict o k v :
  getitem_str o k = Ret v -> exists items, o = PDict items /\ dict_get items k = Some v.
Proof.
  destruct o; simpl; try discriminate.
  destruct (dict_get items k) eqn:H; [| discriminate].
  intros [= ->]. eauto.
Qed.

(** A string answers [[0]] with a string, and a string has no members. *)
Lemma getitem_int_str s i v k :
  getitem_int (PStr s) i = Ret v -> exists e, getitem_str v k = Raise e.
Proof.
  simpl. destruct (norm_index i (String.length s)); [| discriminate].
  destruct (String.get n s); [| discriminate].
  intros [= <-]. simpl. eauto.
Qed.

(** The subscripts of line 145 find a value exactly when the JSON path
    [choices[0].message.content] exists in the body. *)
Lemma extract_content_nested body v :
  extract_content body = Ret v <-> nested_content body = Some v.
Proof.
  unfold extract_content, nested_content. split.
  - destruct (getitem_str body "choices") as [choices | |] eqn:H1;
      [| discriminate ..].
    apply getitem_str_not_dict in H1 as (top & -> & ->).
    destruct (getitem_int choices 0) as [choice | |] eqn:H2; [| discriminate ..].
    destruct (getitem_str choice "message") as [message | |] eqn:H3;
      [| discriminate ..].
    intros H4. apply getitem_str_not_dict in H4 as (m & -> & H4).
    destruct choices as [ | | | | s | [| x xs] | ]; try discriminate.
    + destruct (getitem_int_str s 0 _ "message" H2) as [e He]. congruence.
    + rewrite getitem_int_0_list in H2. injection H2 as ->.
      apply getitem_str_not_dict in H3 as (c & -> & ->). assumption.
  - destruct body as [ | | | | | | top]; try discriminate.
    simpl. destruct (dict_get top "choices") as [[ | | | | | [| [] xs] | ] |];
      try discriminate.
    rewrite getitem_int_0_list. simpl.
    destruct (dict_get items "message") as [[] |]; try discriminate.
    simpl. intros ->. reflexivity.
Qed.

(** Subscripts, [len] and slices raise instances of [Exception] only. *)
Lemma getitem_str_no_interrupt o k i : getitem_str o k <> Interrupt i.
Proof.
  destruct o; simpl; try discriminate.
  destruct (dict_get items k); discriminate.
Qed.

Lemma getitem_int_no_interrupt o n i : getitem_int o n <> Interrupt i.
Proof.
  destruct o; simpl; try discriminate.
  - destruct (norm_index n (String.length s)) as [j |]; [| discriminate].
    destruct (String.get j s); discriminate.
  - destruct (norm_index n (List.length xs)) as [j |]; [| discriminate].
    destruct (nth_error xs j); discriminate.
Qed.

Lemma extract_content_no_interrupt body i : extract_content body <> Interrupt i.
Proof.
  unfold extract_content.
  destruct (getitem_str body "choices") as [choices | e | j] eqn:H1;
    [| discriminate | exfalso; exact (getitem_str_no_interrupt _ _ _ H1)].
  destruct (getitem_int choices 0) as [choice | e | j] eqn:H2;
    [| discriminate | exfalso; exact (getitem_int_no_interrupt _ _ _ H2)].
  destruct (getitem_str choice "message") as [message | e | j] eqn:H3;
    [| discriminate | exfalso; exact (getitem_str_no_interrupt _ _ _ H3)].
  apply getitem_str_no_interrupt.
Qed.

Lemma content_preview_no_interrupt content i :
  content_preview py_repr content <> Interrupt i.
Proof.
  unfold content_preview.
  destruct content; simpl; try discriminate;
    match goal with
    | |- context [(500 <? ?n)%nat] => destruct (500 <? n)%nat
    end; discriminate.
Qed.


Lemma content_preview_str s :
  content_preview py_repr (PStr s) =
    Ret (let '(shown, dots) := preview s in MsgResponseContent shown dots).
Proof.
  unfold content_preview, preview; simpl.
  destruct (500 <? String.length s)%nat; reflexivity.
Qed.

(** *** One attempt of [get_chat_completion] *)

Local Abbreviation try_of := (get_chat_completion_try py_repr post cfg).

(** Evaluate the attempt once the outcome [E] of [call_openrouter_api] in
    it is known. *)
Local Ltac run_attempt E :=
  unfold get_chat_completion_body, get_chat_completion_try, try_except, bind;
  rewrite E; simpl;
  unfold lift, logger, ret, after_call; simpl;
  repeat match goal with H : _ = _ |- _ => rewrite H; simpl end;
  rewrite <- ?app_assoc; simpl; try reflexivity.

Lemma attempt_post_raises messages model temperature w e :
  outcome (post (List.length (sent w)) (request_of messages model temperature)) = Raise e ->
  body_of messages model temperature w =
    (Ret PNone,
     after_call messages model temperature
       (preamble messages ++ [(ERROR, MsgApiCallException (str e));
                              (ERROR, MsgCompletionError (str e))]) w).
Proof.
  intros H. pose proof (call_api_post_raises messages model temperature w e H) as E.
  clear H. run_attempt E.
Qed.

Lemma attempt_json_raises messages model temperature w resp e :
  outcome (post (List.length (sent w)) (request_of messages model temperature)) = Ret resp ->
  status_code resp = 200 ->
  json resp = Raise e ->
  body_of messages model temperature w =
    (Ret PNone,
     after_call messages model temperature
       (preamble messages ++ [(ERROR, MsgApiCallException (str e));
                              (ERROR, MsgCompletionError (str e))]) w).
Proof.
  intros H H200 Hj.
  pose proof (call_api_json_raises messages model temperature w resp e H H200 Hj) as E.
  clear H H200 Hj. run_attempt E.
Qed.

Lemma attempt_other_status messages model temperature w resp :
  outcome (post (List.length (sent w)) (request_of messages model temperature)) = Ret resp ->
  status_code resp <> 200 ->
  body_of messages model temperature w =
    (Ret PNone,
     after_call messages model temperature
       (preamble messages
          ++ [(ERROR, MsgApiCallFailed (status_code resp) (text resp));
              (ERROR, MsgEmptyResponse)]) w).
Proof.
  intros H Hne.
  pose proof (call_api_other_status messages model temperature w resp H Hne) as E.
  clear H Hne. run_attempt E.
Qed.

Lemma attempt_null_body messages model temperature w resp :
  outcome (post (List.length (sent w)) (request_of messages model temperature)) = Ret resp ->
  status_code resp = 200 ->
  json resp = Ret PNone ->
  body_of messages model temperature w =
    (Ret PNone,
     after_call messages model temperature
       (preamble messages ++ [(INFO, MsgApiCallSucceeded);
                              (ERROR, MsgEmptyResponse)]) w).
Proof.
  intros H H200 Hj.
  pose proof (call_api_ok messages model temperature w resp PNone H H200 Hj) as E.
  clear H H200 Hj. run_attempt E.
Qed.

Lemma attempt_shape_error messages model temperature w resp data e :
  outcome (post (List.length (sent w)) (request_of messages model temperature)) = Ret resp ->
  status_code resp = 200 ->
  json resp = Ret data ->
  is_None data = false ->
  extract_content data = Raise e ->
  body_of messages model temperature w =
    (Ret PNone,
     after_call messages model temperature
       (preamble messages ++ [(INFO, MsgApiCallSucceeded);
                              (ERROR, MsgCompletionError (str e))]) w).
Proof.
  intros H H200 Hj Hn He.
  pose proof (call_api_ok messages model temperature w resp data H H200 Hj) as E.
  clear H H200 Hj. run_attempt E.
Qed.

Lemma attempt_preview_error messages model temperature w resp data content e :
  outcome (post (List.length (sent w)) (request_of messages model temperature)) = Ret resp ->
  status_code resp = 200 ->
  json resp = Ret data ->
  is_None data = false ->
  extract_content data = Ret content ->
  content_preview py_repr content = Raise e ->
  body_of messages model temperature w =
    (Ret PNone,
     after_call messages model temperature
       (preamble messages ++ [(INFO, MsgApiCallSucceeded);
                              (INFO, MsgGotResponse);
                              (ERROR, MsgCompletionError (str e))]) w).
Proof.
  intros H H200 Hj Hn He Hp.
  pose proof (call_api_ok messages model temperature w resp data H H200 Hj) as E.
  clear H H200 Hj. run_attempt E.
Qed.

Lemma attempt_ok messages model temperature w resp data content line :
  outcome (post (List.length (sent w)) (request_of messages model temperature)) = Ret resp ->
  status_code resp = 200 ->
  json resp = Ret data ->
  is_None data = false ->
  extract_content data = Ret content ->
  content_preview py_repr content = Ret line ->
  body_of messages model temperature w =
    (Ret content,
     after_call messages model temperature
       (preamble messages ++ [(INFO, MsgApiCallSucceeded);
                              (INFO, MsgGotResponse);
                              (DEBUG, line)]) w).
Proof.
  intros H H200 Hj Hn He Hp.
  pose proof (call_api_ok messages model temperature w resp data H H200 Hj) as E.
  clear H H200 Hj. run_attempt E.
Qed.

Lemma attempt_post_interrupted messages model temperature w i :
  outcome (post (List.length (sent w)) (request_of messages model temperature))
    = Interrupt i ->
  body_of messages model temperature w =
    (Interrupt i, after_call messages model temperature (preamble messages) w).
Proof.
  intros H.
  pose proof (call_api_post_interrupted messages model temperature w i H) as E.
  clear H. run_attempt E.
Qed.

Lemma attempt_json_interrupted messages model temperature w resp i :
  outcome (post (List.length (sent w)) (request_of messages model temperature)) = Ret resp ->
  status_code resp = 200 ->
  json resp = Interrupt i ->
  body_of messages model temperature w =
    (Interrupt i, after_call messages model temperature (preamble messages) w).
Proof.
  intros H H200 Hj.
  pose proof (call_api_json_interrupted messages model temperature w resp i H H200 Hj)
    as E.
  clear H H200 Hj. run_attempt E.
Qed.

(** Unless an exception outside [Exception] cuts the HTTP call short, the
    attempt returns; the transport has been called once either way. *)
Lemma attempt_cases messages model temperature w :
  match interrupted_by
          (post (List.length (sent w)) (request_of messages model temperature)) with
  | None =>
      exists v records,
        body_of messages model temperature w =
          (Ret v, after_call messages model temperature records w)
  | Some i =>
      body_of messages model temperature w =
        (Interrupt i, after_call messages model temperature (preamble messages) w)
  end.
Proof.
  unfold interrupted_by.
  destruct (outcome (post (List.length (sent w))
                       (request_of messages model temperature)))
    as [resp | e | i] eqn:Hout.
  2: { do 2 eexists. eapply attempt_post_raises; eauto. }
  2: { apply attempt_post_interrupted; assumption. }
  destruct (Z.eqb_spec (status_code resp) 200) as [H200 | Hne].
  2: { do 2 eexists. eapply attempt_other_status; eauto. }
  destruct (json resp) as [data | e | i] eqn:Hjson.
  2: { do 2 eexists. eapply attempt_json_raises; eauto. }
  2: { eapply attempt_json_interrupted; eassumption. }
  destruct (is_None data) eqn:Hnone.
  { destruct data; try discriminate.
    do 2 eexists. eapply attempt_null_body; eauto. }
  destruct (extract_content data) as [content | e | i] eqn:Hcontent.
  2: { do 2 eexists. eapply attempt_shape_error; eauto. }
  2: { exfalso. exact (extract_content_no_interrupt _ _ Hcontent). }
  destruct (content_preview py_repr content) as [line | e | i] eqn:Hline.
  - do 2 eexists. eapply attempt_ok; eauto.
  - do 2 eexists. eapply attempt_preview_error; eauto.
  - exfalso. exact (content_preview_no_interrupt _ _ Hline).
Qed.

(** *** The decorator *)

Local Abbreviation retry_of := (retry rand).
Local Abbreviation on_exception_of := (on_exception rand).

(** A target that returns is run once and its value handed back. *)
Lemma on_exception_returns {A} (max_tries : nat) (max_time : Z)
      (target : M A) (w w1 : world) (a : A) :
  target w = (Ret a, w1) ->
  on_exception_of (S max_tries) max_time target w = Some (Ret a, w1).
Proof.
  intros H. unfold on_exception. simpl. rewrite H. reflexivity.
Qed.

(** So is a target that an exception outside [Exception] cuts short: the
    decorator lets it through. *)
Lemma on_exception_interrupted {A} (max_tries : nat) (max_time : Z)
      (target : M A) (w w1 : world) (i : interrupt) :
  target w = (Interrupt i, w1) ->
  on_exception_of (S max_tries) max_time target w = Some (Interrupt i, w1).
Proof.
  intros H. unfold on_exception. simpl. rewrite H. reflexivity.
Qed.

(** One iteration of the loop. *)
Lemma retry_step {A} (max_tries : nat) (max_time : Z) (target : M A) (start : Z)
      (fuel tries : nat) (w : world) :
  retry_of max_tries max_time target start (S fuel) tries w =
    match target w with
    | (Ret a, w1) => Some (Ret a, w1)
    | (Raise e, w1) =>
        if (S tries =? max_tries)%nat || (max_time <=? clock w - start)
        then Some (Raise e, w1)
        else
          retry_of max_tries max_time target start fuel (S tries)
            (snd (sleep
                    (Z.min (full_jitter rand (S tries) (expo tries))
                           (max_time - (clock w - start))) w1))
    | (Interrupt i, w1) => Some (Interrupt i, w1)
    end.
Proof. reflexivity. Qed.

(** The loop of the decorator ends within [max_tries] iterations: started
    with that much fuel it never runs out. *)
Lemma retry_total {A} (max_tries : nat) (max_time : Z) (target : M A) (start : Z) :
  forall (fuel tries : nat) (w : world),
    (tries + fuel = max_tries)%nat -> (1 <= fuel)%nat ->
    exists r, retry_of max_tries max_time target start fuel tries w = Some r.
Proof.
  induction fuel as [| fuel IH]; intros tries w Hsum Hfuel; [lia |].
  rewrite retry_step. destruct (target w) as [[a | e | i] w1]; [eauto | | eauto].
  destruct (Nat.eqb_spec (S tries) max_tries) as [Heq | Hne]; [eauto |].
  destruct (max_time <=? clock w - start); [eauto |].
  apply IH; lia.
Qed.

Lemma on_exception_total {A} (max_tries : nat) (max_time : Z) (target : M A) (w : world) :
  (1 <= max_tries)%nat ->
  exists r, on_exception_of max_tries max_time target w = Some r.
Proof.
  intros H. unfold on_exception. apply retry_total; lia.
Qed.

(** A target that raises whatever the world is makes the decorator raise. *)
Lemma retry_gives_up {A} (max_tries : nat) (max_time : Z) (target : M A) (start : Z) :
  (forall w, exists e w1, target w = (Raise e, w1)) ->
  forall (fuel tries : nat) (w : world),
    (tries + fuel = max_tries)%nat -> (1 <= fuel)%nat ->
    exists e w1,
      retry_of max_tries max_time target start fuel tries w = Some (Raise e, w1).
Proof.
  intros Hraise.
  induction fuel as [| fuel IH]; intros tries w Hsum Hfuel; [lia |].
  rewrite retry_step. destruct (Hraise w) as (e & w1 & ->).
  destruct (Nat.eqb_spec (S tries) max_tries) as [Heq | Hne]; [eauto |].
  destruct (max_time <=? clock w - start); [eauto |].
  apply IH; lia.
Qed.

(** The decorated function runs its target once, whatever happens, and
    ends as its target does. *)
Lemma completion_cases (messages model temperature : pyobj) (w : world) :
  exists r records,
    body_of messages model temperature w =
      (r, after_call messages model temperature records w) /\
    completion_of messages model temperature w =
      Some (r, after_call messages model temperature records w) /\
    match interrupted_by
            (post (List.length (sent w)) (request_of messages model temperature)) with
    | None => exists v, r = Ret v
    | Some i => r = Interrupt i /\ records = preamble messages
    end.
Proof.
  pose proof (attempt_cases messages model temperature w) as Hrun.
  destruct (interrupted_by _) as [i |].
  - exists (Interrupt i), (preamble messages). split; [exact Hrun |].
    split; [| auto].
    unfold get_chat_completion. apply on_exception_interrupted. exact Hrun.
  - destruct Hrun as (v & records & Hrun).
    exists (Ret v), records. split; [exact Hrun |]. split; [| eauto].
    unfold get_chat_completion. apply on_exception_returns. exact Hrun.
Qed.

(** *** The claims about one call *)

(** C3, as amended.  Whatever the arguments and whatever the transport
    does, as long as what is raised during the attempt is an instance of
    [Exception], the function under the decorator returns a value and does
    not raise; the transport is called once; when anything raised inside
    its [try] the value is [None]; and the decorated function therefore
    ends after that single attempt with the same value and the same
    world. *)
Theorem attempt_catches_every_exception (messages model temperature : pyobj)
        (w : world) :
  interrupted_by
    (post (List.length (sent w)) (request_of messages model temperature)) = None ->
  exists v w',
    body_of messages model temperature w = (Ret v, w') /\
    sent w' = sent w ++ [request_of messages model temperature] /\
    (forall e w1, try_of messages model temperature w = (Raise e, w1) -> v = PNone) /\
    completion_of messages model temperature w = Some (Ret v, w').
Proof.
  intros Hquiet.
  destruct (completion_cases messages model temperature w)
    as (r & records & Hrun & Hdecorated & Hkind).
  rewrite Hquiet in Hkind. destruct Hkind as [v ->].
  exists v. eexists. split; [exact Hrun |]. split; [reflexivity |]. split.
  - intros e w1 Htry.
    unfold get_chat_completion_body, try_except in Hrun.
    rewrite Htry in Hrun. unfold bind, logger, ret in Hrun. simpl in Hrun.
    congruence.
  - exact Hdecorated.
Qed.

(** C4.  When the transport answers with a status other than 200,
    [call_openrouter_api] logs the status and the body and returns [None]
    without raising, and [get_chat_completion] returns [None] after that
    one call of the transport. *)
Theorem other_status_is_sentinel (messages model temperature : pyobj)
        (w : world) (resp : response) :
  outcome (post (List.length (sent w)) (request_of messages model temperature)) = Ret resp ->
  status_code resp <> 200 ->
  call_api messages model temperature w =
    (Ret PNone,
     after_call messages model temperature
       (preamble messages
          ++ [(ERROR, MsgApiCallFailed (status_code resp) (text resp))]) w)
  /\
  exists w',
    completion_of messages model temperature w = Some (Ret PNone, w') /\
    sent w' = sent w ++ [request_of messages model temperature].
Proof.
  intros Hout Hne. split.
  - apply call_api_other_status; assumption.
  - eexists. split.
    + unfold get_chat_completion. apply on_exception_returns.
      eapply attempt_other_status; eassumption.
    + reflexivity.
Qed.

(** C5.  When the transport answers 200 with a body that holds a string at
    [choices[0].message.content], [get_chat_completion] returns exactly
    that string, after one call of the transport. *)
Theorem valid_body_returns_content (messages model temperature : pyobj)
        (w : world) (resp : response) (body : pyobj) (s : string) :
  outcome (post (List.length (sent w)) (request_of messages model temperature)) = Ret resp ->
  status_code resp = 200 ->
  json resp = Ret body ->
  nested_content body = Some (PStr s) ->
  exists w',
    completion_of messages model temperature w = Some (Ret (PStr s), w') /\
    sent w' = sent w ++ [request_of messages model temperature].
Proof.
  intros Hout H200 Hjson Hpath.
  eexists. split.
  - unfold get_chat_completion. apply on_exception_returns.
    eapply attempt_ok; try eassumption.
    + destruct body; [discriminate | reflexivity ..].
    + apply extract_content_nested. exact Hpath.
    + apply content_preview_str.
  - reflexivity.
Qed.


(** C7, as amended.  The request that [call_openrouter_api] and
    [get_chat_completion] hand to the transport carries, as the [model]
    member of its body, the [model] argument itself when that argument is
    true in the sense of Python (a non-empty string, say), and the
    configured default model when it is not ([None], that is omitted, or
    the empty string). *)
Theorem request_model_field (messages model temperature : pyobj) (w : world) :
  model_field (request_of messages model temperature) =
    Some (if truthy model then model else PStr (default_model cfg))
  /\ sent (snd (call_api messages model temperature w)) =
       sent w ++ [request_of messages model temperature]
  /\ exists r w',
       completion_of messages model temperature w = Some (r, w') /\
       sent w' = sent w ++ [request_of messages model temperature].
Proof.
  split; [reflexivity |]. split.
  - destruct (call_api_cases messages model temperature w)
      as [(e & _ & ->) | (r & records & _ & _ & ->)]; reflexivity.
  - destruct (completion_cases messages model temperature w)
      as (r & records & _ & Hrun & _).
    do 2 eexists. split; [exact Hrun | reflexivity].
Qed.

(** C9.  [call_openrouter_api] raises [e] exactly when the HTTP call fails
    with [e]; it then has logged [e] as an error, after the two lines that
    precede the request, and the exception that leaves is [e] itself. *)
Theorem call_api_raises_iff (messages model temperature : pyobj) (w : world) (e : exn) :
  let rep := post (List.length (sent w)) (request_of messages model temperature) in
  (fst (call_api messages model temperature w) = Raise e <-> http_raises rep e)
  /\
  (http_raises rep e ->
   call_api messages model temperature w =
     (Raise e,
      after_call messages model temperature
        (preamble messages ++ [(ERROR, MsgApiCallException (str e))]) w)).
Proof.
  intros rep.
  assert (Hraise : http_raises rep e ->
     call_api messages model temperature w =
       (Raise e,
        after_call messages model temperature
          (preamble messages ++ [(ERROR, MsgApiCallException (str e))]) w)).
  { intros [Hp | resp Hp H200 Hj].
    - apply call_api_post_raises; assumption.
    - eapply call_api_json_raises; eassumption. }
  split; [| exact Hraise]. split.
  - destruct (call_api_cases messages model temperature w)
      as [(e' & He' & ->) | (r & records & Hr & _ & ->)]; simpl.
    + intros [= <-]. exact He'.
    + intros ->. exfalso. exact (Hr e eq_refl).
  - intros H. rewrite (Hraise H). reflexivity.
Qed.

(** C10.  With [model=""] the [model] member of the request body is the
    configured default model, not the empty string. *)
Theorem empty_model_uses_default (messages temperature : pyobj) (w : world) :
  model_field (request_of messages (PStr "") temperature) =
    Some (PStr (default_model cfg))
  /\ sent (snd (call_api messages (PStr "") temperature w)) =
       sent w ++ [request_of messages (PStr "") temperature].
Proof.
  split; [reflexivity |].
  destruct (call_api_cases messages (PStr "") temperature w)
    as [(e & _ & ->) | (r & records & _ & _ & ->)]; reflexivity.
Qed.

End Properties.

(** ** Start-up *)

Lemma init_module_run (env_path : string) (dotenv : option (gmap string string))
      (w : world) :
  exists records,
    init_module env_path dotenv w =
      (match environ_at_startup dotenv w !! "OPENROUTER_API_KEY" with
       | Some (String c rest) =>
           Ret {| api_key := String c rest;
                  default_model :=
                    default "deepseek/deepseek-chat"
                            (environ_at_startup dotenv w !! "OPENROUTER_MODEL") |}
       | _ => Raise (ValueError "OPENROUTER_API_KEY not found in environment variables")
       end,
       {| os_environ := environ_at_startup dotenv w; sent := sent w;
          clock := clock w; log := log w ++ records |}).
Proof.
  unfold init_module, bind, load_dotenv, getenv, logger, raise, ret.
  destruct dotenv as [file |]; simpl;
    match goal with
    | |- context [?m !! "OPENROUTER_API_KEY"] =>
        destruct (m !! "OPENROUTER_API_KEY") as [[| c rest] |]
    end; simpl; rewrite <- ?app_assoc; eexists; reflexivity.
Qed.

(** C8.  When [OPENROUTER_API_KEY] is missing from the environment or
    empty, once the optional [.env] file has been loaded, the import raises
    [ValueError]; otherwise it succeeds with that key.  Either way no
    request has reached the transport.  After a successful import every
    call, in whatever world it is made, sends its request with that same
    key in the [Authorization] header. *)
Theorem init_module_requires_api_key (env_path : string)
        (dotenv : option (gmap string string)) (w : world) :
  let '(r, w') := init_module env_path dotenv w in
  sent w' = sent w /\
  match environ_at_startup dotenv w !! "OPENROUTER_API_KEY" with
  | Some (String c rest) =>
      exists cfg,
        r = Ret cfg /\ api_key cfg = String c rest /\
        forall py_repr post rand messages model temperature w2,
        exists v w3 req,
          get_chat_completion py_repr post rand cfg messages model temperature w2
            = Some (v, w3) /\
          sent w3 = sent w2 ++ [req] /\
          authorization req = Some ("Bearer " ++ String c rest)%string
  | _ =>
      r = Raise (ValueError "OPENROUTER_API_KEY not found in environment variables")
  end.
Proof.
  destruct (init_module_run env_path dotenv w) as [records ->].
  split; [reflexivity |].
  destruct (environ_at_startup dotenv w !! "OPENROUTER_API_KEY") as [[| c rest] |];
    try reflexivity.
  eexists. split; [reflexivity |]. split; [reflexivity |].
  intros py_repr post rand messages model temperature w2.
  match goal with
  | |- context [get_chat_completion _ _ _ ?cfg] =>
      destruct (completion_cases py_repr post rand cfg messages model temperature w2)
        as (v & rs & _ & Hrun & _)
  end.
  do 3 eexists. split; [exact Hrun |]. split; reflexivity.
Qed.

Example init_module_with_key :
  fst (init_module ".env" None
         {| os_environ := {[ "OPENROUTER_API_KEY" := "sk-live" ]};
            sent := []; clock := 0; log := [] |})
  = Ret {| api_key := "sk-live"; default_model := "deepseek/deepseek-chat" |}.
Proof. vm_compute. reflexivity. Qed.

Example init_module_without_key :
  fst (init_module ".env" None Fixtures.fresh)
  = Raise (ValueError "OPENROUTER_API_KEY not found in environment variables").
Proof. vm_compute. reflexivity. Qed.

(** The file wins over the process environment ([override=True]). *)
Example init_module_dotenv_overrides :
  fst (init_module ".env"
         (Some {[ "OPENROUTER_API_KEY" := "sk-file"; "OPENROUTER_MODEL" := "openai/gpt-4o" ]})
         {| os_environ := {[ "OPENROUTER_API_KEY" := "sk-live" ]};
            sent := []; clock := 0; log := [] |})
  = Ret {| api_key := "sk-file"; default_model := "openai/gpt-4o" |}.
Proof. vm_compute. reflexivity. Qed.

(** ** The decorator at work *)

(** Placed directly on a function that lets the exception out, as
    [call_openrouter_api] does, the decorator calls it five times and then
    raises. *)
Example decorator_retries_raising_target :
  exists w',
    on_exception Fixtures.no_jitter 5 300
      (call_openrouter_api Fixtures.repr Fixtures.unreachable Fixtures.cfg
         Fixtures.messages PNone Fixtures.temperature)
      Fixtures.fresh
    = Some (Raise Fixtures.connection_error, w')
    /\ List.length (sent w') = 5%nat.
Proof. eexists. split; vm_compute; reflexivity. Qed.

(** And it stops at the first attempt that returns. *)
Example decorator_retries_until_return :
  exists w',
    on_exception Fixtures.no_jitter 5 300
      (call_openrouter_api Fixtures.repr
         (Fixtures.flaky 2 Fixtures.connection_error
            (Fixtures.ok (Fixtures.completion (PStr "pong"))))
         Fixtures.cfg Fixtures.messages PNone Fixtures.temperature)
      Fixtures.fresh
    = Some (Ret (Fixtures.completion (PStr "pong")), w')
    /\ List.length (sent w') = 3%nat.
Proof. eexists. split; vm_compute; reflexivity. Qed.

(** The time ceiling: with attempts that take 400 units each, the second
    failure is past the 300 units and ends the loop. *)
Example decorator_stops_at_max_time :
  exists w',
    on_exception Fixtures.no_jitter 5 300
      (call_openrouter_api Fixtures.repr
         (Fixtures.always {| took := 400; outcome := Raise Fixtures.connection_error |})
         Fixtures.cfg Fixtures.messages PNone Fixtures.temperature)
      Fixtures.fresh
    = Some (Raise Fixtures.connection_error, w')
    /\ List.length (sent w') = 2%nat.
Proof. eexists. split; vm_compute; reflexivity. Qed.

(** ** Transports that raise *)

(** C1.  With a transport that raises [e] on every call,
    [get_chat_completion] does return a value: [None], after a single call
    of the transport.  The exception is caught by the [except] of the
    function under the decorator, so that the decorator has nothing to
    retry and nothing to raise. *)
Theorem always_raising_transport_returns_none
        (py_repr : pyobj -> string) (rand : nat -> Z) (cfg : config)
        (messages model temperature : pyobj) (w : world) (e : exn) (t : Z) :
  exists w',
    get_chat_completion py_repr
      (Fixtures.always {| took := t; outcome := Raise e |})
      rand cfg messages model temperature w
    = Some (Ret PNone, w')
    /\ sent w' = sent w ++ [completion_request cfg messages model temperature].
Proof.
  eexists. split.
  - unfold get_chat_completion. apply on_exception_returns.
    apply attempt_post_raises. reflexivity.
  - reflexivity.
Qed.

(** C2.  With a transport that raises [e] on its first [n + 1] calls and
    answers a valid completion from then on, [get_chat_completion] returns
    [None] after a single call of the transport: the later answer is never
    asked for. *)
Theorem flaky_transport_returns_none
        (py_repr : pyobj -> string) (rand : nat -> Z) (cfg : config)
        (messages model temperature : pyobj) (n : nat) (e : exn) (s : string) :
  exists w',
    get_chat_completion py_repr
      (Fixtures.flaky (S n) e (Fixtures.ok (Fixtures.completion (PStr s))))
      rand cfg messages model temperature Fixtures.fresh
    = Some (Ret PNone, w')
    /\ sent w' = [completion_request cfg messages model temperature].
Proof.
  eexists. split.
  - unfold get_chat_completion. apply on_exception_returns.
    apply attempt_post_raises. reflexivity.
  - reflexivity.
Qed.

(** ** The claims at the fixtures *)

(** C4 at a transport that answers 500 to every call. *)
Lemma other_status_is_sentinel_witness :
  status_code {| status_code := 500; text := "Internal Server Error";
                 json := Raise (RaisedError "JSONDecodeError" "Expecting value") |}
    <> 200
  /\ exists w',
       get_chat_completion Fixtures.repr Fixtures.server_error Fixtures.no_jitter
         Fixtures.cfg Fixtures.messages PNone Fixtures.temperature Fixtures.fresh
       = Some (Ret PNone, w')
       /\ sent w' = sent Fixtures.fresh
                      ++ [completion_request Fixtures.cfg Fixtures.messages PNone
                            Fixtures.temperature].
Proof.
  split; [simpl; lia |].
  apply (other_status_is_sentinel Fixtures.repr Fixtures.server_error
           Fixtures.no_jitter Fixtures.cfg Fixtures.messages PNone
           Fixtures.temperature Fixtures.fresh
           {| status_code := 500; text := "Internal Server Error";
              json := Raise (RaisedError "JSONDecodeError" "Expecting value") |}).
  - reflexivity.
  - simpl; lia.
Defined.

(** C5 at a transport that answers 200 with the content [pong]. *)
Lemma valid_body_returns_content_witness :
  nested_content (Fixtures.completion (PStr "pong")) = Some (PStr "pong")
  /\ exists w',
       get_chat_completion Fixtures.repr Fixtures.answers_pong Fixtures.no_jitter
         Fixtures.cfg Fixtures.messages PNone Fixtures.temperature Fixtures.fresh
       = Some (Ret (PStr "pong"), w')
       /\ sent w' = sent Fixtures.fresh
                      ++ [completion_request Fixtures.cfg Fixtures.messages PNone
                            Fixtures.temperature].
Proof.
  split; [reflexivity |].
  apply (valid_body_returns_content Fixtures.repr Fixtures.answers_pong
           Fixtures.no_jitter Fixtures.cfg Fixtures.messages PNone
           Fixtures.temperature Fixtures.fresh
           {| status_code := 200; text := "<body>";
              json := Ret (Fixtures.completion (PStr "pong")) |}
           (Fixtures.completion (PStr "pong")) "pong");
    reflexivity.
Defined.


(** C9 at a transport that raises [ConnectionError] on every call. *)
Lemma call_api_raises_iff_witness :
  http_raises (Fixtures.unreachable 0%nat
                 (completion_request Fixtures.cfg Fixtures.messages PNone
                    Fixtures.temperature))
              Fixtures.connection_error
  /\ call_openrouter_api Fixtures.repr Fixtures.unreachable Fixtures.cfg
       Fixtures.messages PNone Fixtures.temperature Fixtures.fresh
     = (Raise Fixtures.connection_error,
        after_call Fixtures.unreachable Fixtures.cfg Fixtures.messages PNone
          Fixtures.temperature
          (preamble Fixtures.repr Fixtures.messages
             ++ [(ERROR, MsgApiCallException "Connection reset by peer")])
          Fixtures.fresh).
Proof.
  assert (H : http_raises
                (Fixtures.unreachable 0%nat
                   (completion_request Fixtures.cfg Fixtures.messages PNone
                      Fixtures.temperature))
                Fixtures.connection_error)
    by (apply post_raised; reflexivity).
  split; [exact H |].
  exact (proj2 (call_api_raises_iff Fixtures.repr Fixtures.unreachable
                  Fixtures.cfg Fixtures.messages PNone Fixtures.temperature
                  Fixtures.fresh Fixtures.connection_error) H).
Defined.

(** C3 at a transport that raises [ConnectionError] on every call. *)
Lemma attempt_catches_every_exception_witness :
  interrupted_by
    (Fixtures.unreachable 0%nat
       (completion_request Fixtures.cfg Fixtures.messages PNone Fixtures.temperature))
  = None
  /\ exists v w',
       get_chat_completion_body Fixtures.repr Fixtures.unreachable Fixtures.cfg
         Fixtures.messages PNone Fixtures.temperature Fixtures.fresh = (Ret v, w') /\
       sent w' = sent Fixtures.fresh
                   ++ [completion_request Fixtures.cfg Fixtures.messages PNone
                         Fixtures.temperature] /\
       (forall e w1,
           get_chat_completion_try Fixtures.repr Fixtures.unreachable Fixtures.cfg
             Fixtures.messages PNone Fixtures.temperature Fixtures.fresh
           = (Raise e, w1) -> v = PNone) /\
       get_chat_completion Fixtures.repr Fixtures.unreachable Fixtures.no_jitter
         Fixtures.cfg Fixtures.messages PNone Fixtures.temperature Fixtures.fresh
       = Some (Ret v, w').
Proof.
  split; [reflexivity |].
  apply (attempt_catches_every_exception Fixtures.repr Fixtures.unreachable
           Fixtures.no_jitter Fixtures.cfg Fixtures.messages PNone
           Fixtures.temperature Fixtures.fresh).
  reflexivity.
Defined.

(** C3 as first worded fails: a transport may raise
    [KeyboardInterrupt], which is no instance of [Exception]; neither
    [except] catches it and the call does not return. *)
Lemma keyboard_interrupt_is_not_caught :
  ~ (forall (py_repr : pyobj -> string) (post : nat -> request -> reply)
            (rand : nat -> Z) (cfg : config)
            (messages model temperature : pyobj) (w : world),
        exists v w',
          get_chat_completion_body py_repr post cfg messages model temperature w
            = (Ret v, w')
          /\ get_chat_completion py_repr post rand cfg messages model temperature w
             = Some (Ret v, w')).
Proof.
  intros H.
  destruct (H Fixtures.repr Fixtures.interrupted Fixtures.no_jitter Fixtures.cfg
              Fixtures.messages PNone Fixtures.temperature Fixtures.fresh)
    as (v & w' & Hbody & _).
  vm_compute in Hbody. discriminate.
Qed.

(** What happens there: the exception leaves [get_chat_completion] after
    the two records that precede the request, and after one call of the
    transport. *)
Example keyboard_interrupt_run :
  get_chat_completion Fixtures.repr Fixtures.interrupted Fixtures.no_jitter
    Fixtures.cfg Fixtures.messages PNone Fixtures.temperature Fixtures.fresh
  = Some (Interrupt KeyboardInterrupt,
          after_call Fixtures.interrupted Fixtures.cfg Fixtures.messages PNone
            Fixtures.temperature (preamble Fixtures.repr Fixtures.messages)
            Fixtures.fresh).
Proof. vm_compute. reflexivity. Qed.

(** C7 as the specification words it fails: [model=""] is a supplied
    value, and the request that leaves carries the default model. *)
Lemma supplied_model_not_always_verbatim :
  ~ (forall (py_repr : pyobj -> string) (post : nat -> request -> reply)
            (cfg : config) (messages model temperature : pyobj) (w : world),
        model <> PNone ->
        exists r,
          sent (snd (call_openrouter_api py_repr post cfg
                       messages model temperature w)) = sent w ++ [r]
          /\ model_field r = Some model).
Proof.
  intros H.
  destruct (H Fixtures.repr Fixtures.answers_pong Fixtures.cfg
              Fixtures.messages (PStr "") Fixtures.temperature Fixtures.fresh)
    as (r & Hsent & Hmodel); [discriminate |].
  vm_compute in Hsent. injection Hsent as <-.
  vm_compute in Hmodel. discriminate.
Qed.

(** ** Further properties of the client *)

Section MoreProperties.

Variable py_repr : pyobj -> string.
Variable post : nat -> request -> reply.
Variable rand : nat -> Z.
Variable cfg : config.

Local Abbreviation request_of := (completion_request cfg).
Local Abbreviation completion_of := (get_chat_completion py_repr post rand cfg).
Local Abbreviation reply_to messages model temperature w :=
  (post (List.length (sent w)) (completion_request cfg messages model temperature)).

(** How a call ends and what it logs is decided by the reply of the
    transport to its one request. *)
Lemma completion_summary (messages model temperature : pyobj) (w : world) :
  let o := attempt_outcome py_repr messages (reply_to messages model temperature w) in
  completion_of messages model temperature w =
    Some (fst o, after_call post cfg messages model temperature (snd o) w).
Proof.
  intros o. subst o. unfold get_chat_completion, attempt_outcome.
  destruct (outcome (reply_to messages model temperature w))
    as [resp | e | i] eqn:Hout.
  2: { apply on_exception_returns, attempt_post_raises; assumption. }
  2: { apply on_exception_interrupted, attempt_post_interrupted; assumption. }
  destruct (Z.eqb_spec (status_code resp) 200) as [H200 | Hne].
  2: { apply on_exception_returns, attempt_other_status; assumption. }
  destruct (json resp) as [data | e | i] eqn:Hjson.
  2: { apply on_exception_returns. eapply attempt_json_raises; eassumption. }
  2: { apply on_exception_interrupted.
       eapply attempt_json_interrupted; eassumption. }
  destruct (is_None data) eqn:Hnone.
  { destruct data; try discriminate.
    apply on_exception_returns. eapply attempt_null_body; eassumption. }
  destruct (extract_content data) as [content | e | i] eqn:Hcontent.
  2: { apply on_exception_returns. eapply attempt_shape_error; eassumption. }
  2: { exfalso. exact (extract_content_no_interrupt _ _ Hcontent). }
  destruct (content_preview py_repr content) as [line | e | i] eqn:Hline.
  - apply on_exception_returns. eapply attempt_ok; eassumption.
  - apply on_exception_returns. eapply attempt_preview_error; eassumption.
  - exfalso. exact (content_preview_no_interrupt _ _ _ Hline).
Qed.

(** X1.  A value other than [None] comes out only of a 200 answer whose body
    holds that value at [choices[0].message.content]. *)
Theorem result_is_nested_content (messages model temperature : pyobj)
        (w w' : world) (v : pyobj) :
  completion_of messages model temperature w = Some (Ret v, w') ->
  v <> PNone ->
  exists resp body,
    outcome (reply_to messages model temperature w) = Ret resp /\
    status_code resp = 200 /\
    json resp = Ret body /\
    nested_content body = Some v.
Proof.
  rewrite completion_summary. unfold attempt_outcome.
  destruct (outcome (reply_to messages model temperature w))
    as [resp | e | i] eqn:Hout.
  2: { simpl. intros [= <- _] Hv. contradiction. }
  2: { simpl. discriminate. }
  destruct (Z.eqb_spec (status_code resp) 200) as [H200 | Hne].
  2: { simpl. intros [= <- _] Hv. contradiction. }
  destruct (json resp) as [data | e | i] eqn:Hjson.
  2: { simpl. intros [= <- _] Hv. contradiction. }
  2: { simpl. discriminate. }
  destruct (is_None data).
  { simpl. intros [= <- _] Hv. contradiction. }
  destruct (extract_content data) as [content | e | i] eqn:Hcontent.
  2: { simpl. intros [= <- _] Hv. contradiction. }
  2: { simpl. discriminate. }
  destruct (content_preview py_repr content) as [line | e | i].
  2: { simpl. intros [= <- _] Hv. contradiction. }
  2: { simpl. discriminate. }
  simpl. intros [= <- _] _.
  exists resp, data. repeat split; try assumption.
  apply extract_content_nested. exact Hcontent.
Qed.

(** X2.  A content that the path finds is returned when [len] and the slice of
    lines 147-148 accept it: a string or a list always, a dict of at most
    500 items.  A number, a boolean or [null] there, or a longer dict,
    makes the call return [None]. *)
Theorem result_by_content_kind (messages model temperature : pyobj)
        (w : world) (resp : response) (body c : pyobj) :
  outcome (reply_to messages model temperature w) = Ret resp ->
  status_code resp = 200 ->
  json resp = Ret body ->
  nested_content body = Some c ->
  exists w',
    completion_of messages model temperature w =
      Some (Ret match c with
                | PStr _ | PList _ => c
                | PDict items => if (500 <? List.length items)%nat then PNone else c
                | _ => PNone
                end, w').
Proof.
  intros Hout H200 Hjson Hpath.
  rewrite completion_summary. unfold attempt_outcome.
  rewrite Hout, H200, Hjson. simpl.
  assert (Hnone : is_None body = false) by (destruct body; [discriminate | reflexivity ..]).
  rewrite Hnone.
  apply extract_content_nested in Hpath. rewrite Hpath.
  unfold content_preview.
  destruct c as [ | b | n | m e | s | xs | items ]; simpl; eauto.
  - destruct (500 <? String.length s)%nat; simpl; eauto.
  - destruct (500 <? List.length xs)%nat; simpl; eauto.
  - destruct (500 <? List.length items)%nat; simpl; eauto.
Qed.

(** *** The previews in the log *)

Lemma substring_prefix (n : nat) (s : string) :
  String.prefix (String.substring 0 n s) s = true.
Proof.
  revert n. induction s as [| c s IH]; intros [| n]; simpl; try reflexivity.
  destruct (Ascii.ascii_dec c c) as [_ | Hne]; [apply IH | contradiction].
Qed.

Lemma substring_length (n : nat) (s : string) :
  String.length (String.substring 0 n s) = Nat.min n (String.length s).
Proof.
  revert n. induction s as [| c s IH]; intros [| n]; simpl; try reflexivity.
  rewrite IH. reflexivity.
Qed.

Lemma prefix_refl (s : string) : String.prefix s s = true.
Proof.
  induction s as [| c s IH]; simpl; [reflexivity |].
  destruct (Ascii.ascii_dec c c) as [_ | Hne]; [apply IH | contradiction].
Qed.

(** What [preview] shows is a prefix of the text, of at most 500
    characters; the dots are there exactly when the text is longer. *)
Lemma preview_bounded (s : string) :
  String.prefix (fst (preview s)) s = true /\
  (String.length (fst (preview s)) <= 500)%nat /\
  snd (preview s) = (500 <? String.length s)%nat /\
  (snd (preview s) = false -> fst (preview s) = s).
Proof.
  unfold preview.
  destruct (Nat.ltb_spec 500 (String.length s)) as [Hlong | Hshort];
    cbn [fst snd].
  - split; [apply substring_prefix |]. split; [rewrite substring_length; lia |].
    split; [reflexivity | discriminate].
  - split; [apply prefix_refl |]. split; [assumption |]. split; reflexivity.
Qed.

(** X3.  Whatever the size of [messages], the second record of a call shows a
    prefix of [str(messages)] of at most 500 characters, with the dots
    exactly when something was cut. *)
Theorem request_line_bounded (messages model temperature : pyobj) (w : world) :
  exists v w' shown dots rest,
    completion_of messages model temperature w = Some (v, w') /\
    log w' = log w ++ [(INFO, MsgCallingApi); (INFO, MsgRequestContent shown dots)]
                   ++ rest /\
    String.prefix shown (py_str py_repr messages) = true /\
    (String.length shown <= 500)%nat /\
    dots = (500 <? String.length (py_str py_repr messages))%nat /\
    (dots = false -> shown = py_str py_repr messages).
Proof.
  pose proof (completion_summary messages model temperature w) as Hrun.
  cbv zeta in Hrun.
  assert (Hpre : exists rest,
             snd (attempt_outcome py_repr messages
                    (reply_to messages model temperature w))
             = preamble py_repr messages ++ rest).
  { unfold attempt_outcome.
    repeat match goal with
           | |- context [match ?x with _ => _ end] => destruct x
           end; cbn [snd]; eauto. }
  destruct Hpre as [rest Hpre]. rewrite Hpre in Hrun.
  destruct (preview_bounded (py_str py_repr messages)) as (Hp & Hl & Hd & Hs).
  unfold preamble in Hrun.
  destruct (preview (py_str py_repr messages)) as [shown dots]; cbn [fst snd] in *.
  do 2 eexists. exists shown, dots, rest.
  split; [exact Hrun |]. split; [reflexivity |]. auto.
Qed.

(** X4.  A string content is returned whole, however long; only the record of
    it in the log is cut to its first 500 characters. *)
Theorem response_line_bounded (messages model temperature : pyobj)
        (w : world) (resp : response) (body : pyobj) (s : string) :
  outcome (reply_to messages model temperature w) = Ret resp ->
  status_code resp = 200 ->
  json resp = Ret body ->
  nested_content body = Some (PStr s) ->
  exists w' records shown dots,
    completion_of messages model temperature w = Some (Ret (PStr s), w') /\
    log w' = log w ++ records ++ [(DEBUG, MsgResponseContent shown dots)] /\
    String.prefix shown s = true /\
    (String.length shown <= 500)%nat /\
    dots = (500 <? String.length s)%nat /\
    (dots = false -> shown = s).
Proof.
  intros Hout H200 Hjson Hpath.
  pose proof (completion_summary messages model temperature w) as Hrun.
  cbv zeta in Hrun. unfold attempt_outcome in Hrun.
  rewrite Hout, H200, Hjson in Hrun. simpl in Hrun.
  assert (Hnone : is_None body = false) by (destruct body; [discriminate | reflexivity ..]).
  rewrite Hnone in Hrun.
  apply extract_content_nested in Hpath. rewrite Hpath in Hrun.
  rewrite content_preview_str in Hrun.
  destruct (preview_bounded s) as (Hp & Hl & Hd & Hs).
  destruct (preview s) as [shown dots]; cbn [fst snd] in *.
  eexists. exists [(INFO, MsgCallingApi);
                   (INFO, let '(shown, dots) := preview (py_str py_repr messages) in
                          MsgRequestContent shown dots);
                   (INFO, MsgApiCallSucceeded); (INFO, MsgGotResponse)], shown, dots.
  split; [exact Hrun |]. split; [reflexivity |]. auto.
Qed.

(** *** What a call leaves alone *)

(** Without an exception outside [Exception] the attempt returns a value
    and logs four or five records. *)
Lemma attempt_outcome_quiet (messages : pyobj) (rep : reply) :
  interrupted_by rep = None ->
  exists v,
    fst (attempt_outcome py_repr messages rep) = Ret v /\
    (4 <= List.length (snd (attempt_outcome py_repr messages rep)) <= 5)%nat.
Proof.
  unfold interrupted_by, attempt_outcome. intros Hquiet.
  destruct (outcome rep) as [resp | e | i]; [| | discriminate].
  2: { eexists. split; [reflexivity |]. cbn [snd]. rewrite length_app. simpl. lia. }
  destruct (status_code resp =? 200).
  2: { eexists. split; [reflexivity |]. cbn [snd]. rewrite length_app. simpl. lia. }
  destruct (json resp) as [data | e | i]; [| | discriminate].
  2: { eexists. split; [reflexivity |]. cbn [snd]. rewrite length_app. simpl. lia. }
  destruct (is_None data).
  { eexists. split; [reflexivity |]. cbn [snd]. rewrite length_app. simpl. lia. }
  destruct (extract_content data) as [content | e | i] eqn:Hcontent.
  2: { eexists. split; [reflexivity |]. cbn [snd]. rewrite length_app. simpl. lia. }
  2: { exfalso. exact (extract_content_no_interrupt _ _ Hcontent). }
  destruct (content_preview py_repr content) as [line | e | i] eqn:Hline.
  - eexists. split; [reflexivity |]. cbn [snd]. rewrite length_app. simpl. lia.
  - eexists. split; [reflexivity |]. cbn [snd]. rewrite length_app. simpl. lia.
  - exfalso. exact (content_preview_no_interrupt _ _ _ Hline).
Qed.

(** X5.  Unless an exception outside [Exception] cuts its transport call
    short, a call returns without ever pausing and without touching the
    environment: the clock moves by the duration of the one transport call
    and nothing else, [os.environ] is as before, and the log only grows, by
    four or five records. *)
Theorem call_frame (messages model temperature : pyobj) (w : world) :
  interrupted_by (reply_to messages model temperature w) = None ->
  exists v w' records,
    completion_of messages model temperature w = Some (Ret v, w') /\
    os_environ w' = os_environ w /\
    clock w' = clock w + took (reply_to messages model temperature w) /\
    log w' = log w ++ records /\
    (4 <= List.length records <= 5)%nat.
Proof.
  intros Hquiet.
  pose proof (completion_summary messages model temperature w) as Hrun.
  cbv zeta in Hrun.
  destruct (attempt_outcome_quiet messages _ Hquiet) as (v & Hv & Hlen).
  rewrite Hv in Hrun.
  do 3 eexists. split; [exact Hrun |].
  split; [reflexivity |]. split; [reflexivity |]. split; [reflexivity |].
  exact Hlen.
Qed.

(** *** Calls in a row *)

(** X6.  With a transport whose calls no exception outside [Exception]
    cuts short, a run of calls never stops early: each call returns, and
    each sends exactly one request, in order, so that the transport has
    seen as many requests as there were calls. *)
Theorem run_calls_one_request_each (calls : list (pyobj * pyobj * pyobj)) (w : world) :
  (forall n r, interrupted_by (post n r) = None) ->
  exists vs w',
    run_calls py_repr post rand cfg calls w = Some (Ret vs, w') /\
    List.length vs = List.length calls /\
    sent w' = sent w ++ List.map (fun '(m, mo, t) => request_of m mo t) calls /\
    os_environ w' = os_environ w.
Proof.
  intros Hquiet.
  revert w. induction calls as [| [[m mo] t] calls IH]; intros w.
  - exists [], w. simpl. rewrite app_nil_r. auto.
  - simpl. rewrite completion_summary. cbv zeta.
    destruct (attempt_outcome_quiet m _ (Hquiet (List.length (sent w)) (request_of m mo t)))
      as (v & -> & _).
    edestruct IH as (vs & w' & -> & Hlen & Hsent & Henv).
    do 2 eexists. split; [reflexivity |].
    split; [simpl; rewrite Hlen; reflexivity |].
    split; [rewrite Hsent; simpl; rewrite <- app_assoc; reflexivity |].
    rewrite Henv. reflexivity.
Qed.

(** *** The errors of line 145 in the log *)

(** X7.  A 200 body that is an object without [choices]: the call returns
    [None] and the error record carries [str(KeyError('choices'))], the
    [repr] of the key. *)
Theorem missing_choices_logged (messages model temperature : pyobj)
        (w : world) (resp : response) (items : list (string * pyobj)) :
  outcome (reply_to messages model temperature w) = Ret resp ->
  status_code resp = 200 ->
  json resp = Ret (PDict items) ->
  dict_get items "choices" = None ->
  exists w',
    completion_of messages model temperature w = Some (Ret PNone, w') /\
    log w' = log w ++ preamble py_repr messages
                   ++ [(INFO, MsgApiCallSucceeded);
                       (ERROR, MsgCompletionError (py_repr (PStr "choices")))].
Proof.
  intros Hout H200 Hjson Hkey.
  eexists. split.
  - rewrite completion_summary. cbv zeta. unfold attempt_outcome.
    rewrite Hout, H200, Hjson. simpl. unfold extract_content. simpl.
    rewrite Hkey. simpl. reflexivity.
  - reflexivity.
Qed.

(** X8.  A 200 body whose [choices] is the empty list: the call returns [None]
    and the error record is that of an [IndexError]. *)
Theorem empty_choices_logged (messages model temperature : pyobj)
        (w : world) (resp : response) (items : list (string * pyobj)) :
  outcome (reply_to messages model temperature w) = Ret resp ->
  status_code resp = 200 ->
  json resp = Ret (PDict items) ->
  dict_get items "choices" = Some (PList []) ->
  exists w',
    completion_of messages model temperature w = Some (Ret PNone, w') /\
    log w' = log w ++ preamble py_repr messages
                   ++ [(INFO, MsgApiCallSucceeded);
                       (ERROR, MsgCompletionError "list index out of range")].
Proof.
  intros Hout H200 Hjson Hkey.
  eexists. split.
  - rewrite completion_summary. cbv zeta. unfold attempt_outcome.
    rewrite Hout, H200, Hjson. simpl. unfold extract_content. simpl.
    rewrite Hkey. simpl. reflexivity.
  - reflexivity.
Qed.

End MoreProperties.

(** X9.  The configuration reaches the log through the transport only: two
    configurations whose requests get the same reply make the call return
    the same value and log the same records. *)
Theorem log_independent_of_config
        (py_repr : pyobj -> string) (post : nat -> request -> reply)
        (rand : nat -> Z) (cfg cfg' : config)
        (messages model temperature : pyobj) (w : world) :
  post (List.length (sent w)) (completion_request cfg messages model temperature) =
  post (List.length (sent w)) (completion_request cfg' messages model temperature) ->
  exists v w1 w2,
    get_chat_completion py_repr post rand cfg messages model temperature w
      = Some (v, w1) /\
    get_chat_completion py_repr post rand cfg' messages model temperature w
      = Some (v, w2) /\
    log w1 = log w2 /\ clock w1 = clock w2.
Proof.
  intros Hreply.
  do 3 eexists. split; [apply completion_summary |].
  split; [rewrite completion_summary; cbv zeta; rewrite <- Hreply; reflexivity |].
  unfold after_call; simpl. rewrite Hreply. split; reflexivity.
Qed.

(** ** Further properties of the import *)

(** X10.  The import logs two records: one about the [.env] file, a warning when
    it is missing, and one about the outcome, an error exactly when the
    import raises. *)
Theorem init_module_logs_two_records (env_path : string)
        (dotenv : option (gmap string string)) (w : world) :
  let '(r, w') := init_module env_path dotenv w in
  log w' =
    log w ++ [match dotenv with
              | Some _ => (INFO, MsgEnvLoaded env_path)
              | None => (WARNING, MsgEnvFileMissing env_path)
              end;
              match r with
              | Ret _ => (INFO, MsgConfigInitialised)
              | Raise _ | Interrupt _ => (ERROR, MsgApiKeyMissing)
              end].
Proof.
  unfold init_module, bind, load_dotenv, getenv, logger, raise, ret.
  destruct dotenv as [file |]; simpl;
    match goal with
    | |- context [?m !! "OPENROUTER_API_KEY"] =>
        destruct (m !! "OPENROUTER_API_KEY") as [[| c rest] |]
    end; simpl; rewrite <- ?app_assoc; reflexivity.
Qed.

(** X11.  The default model is whatever [OPENROUTER_MODEL] holds when it is set,
    the empty string included, and [deepseek/deepseek-chat] only when it is
    not set; a call without [model] sends that value. *)
Theorem default_model_from_environment (env_path : string)
        (dotenv : option (gmap string string)) (w : world)
        (c : ascii) (rest : string) :
  environ_at_startup dotenv w !! "OPENROUTER_API_KEY" = Some (String c rest) ->
  exists cfg w',
    init_module env_path dotenv w = (Ret cfg, w') /\
    forall messages temperature,
      model_field (completion_request cfg messages PNone temperature) =
        Some (PStr match environ_at_startup dotenv w !! "OPENROUTER_MODEL" with
                   | Some m => m
                   | None => "deepseek/deepseek-chat"
                   end).
Proof.
  intros Hkey.
  destruct (init_module_run env_path dotenv w) as [records Hrun].
  rewrite Hkey in Hrun. do 2 eexists. split; [exact Hrun |].
  intros messages temperature. unfold model_field. simpl.
  destruct (environ_at_startup dotenv w !! "OPENROUTER_MODEL"); reflexivity.
Qed.

(** X12.  A key in the [.env] file wins over the process environment: the import
    succeeds with the key of the file, or fails when the file sets it to
    the empty string, whatever [os.environ] held, and [os.environ] holds
    the value of the file afterwards. *)
Theorem dotenv_overrides_environment (env_path : string)
        (file : gmap string string) (w : world) (v : string) :
  file !! "OPENROUTER_API_KEY" = Some v ->
  exists r w',
    init_module env_path (Some file) w = (r, w') /\
    os_environ w' !! "OPENROUTER_API_KEY" = Some v /\
    match v with
    | EmptyString =>
        r = Raise (ValueError "OPENROUTER_API_KEY not found in environment variables")
    | String _ _ => exists cfg, r = Ret cfg /\ api_key cfg = v
    end.
Proof.
  intros Hfile.
  assert (Hkey : environ_at_startup (Some file) w !! "OPENROUTER_API_KEY" = Some v).
  { simpl. apply lookup_union_Some_l. exact Hfile. }
  destruct (init_module_run env_path (Some file) w) as [records Hrun].
  rewrite Hkey in Hrun. do 2 eexists. split; [exact Hrun |].
  split; [exact Hkey |].
  destruct v as [| c rest]; [reflexivity |]. eexists. split; reflexivity.
Qed.

(** ** Properties of the logging set-up *)

(** The loop of lines 15-16 leaves no handler, whatever the list held. *)
Lemma remove_all_handlers_nil (hs : list Logging.handler) :
  Logging.remove_all_handlers hs = [].
Proof.
  unfold Logging.remove_all_handlers.
  induction hs as [| h hs IH]; [reflexivity |].
  simpl. destruct (decide (h = h)) as [_ | Hne]; [exact IH | contradiction].
Qed.

Lemma ends_with_sep_app (a b : string) :
  b <> EmptyString ->
  Logging.ends_with_sep (a ++ b) = Logging.ends_with_sep b.
Proof.
  intros Hb. induction a as [| c a IH]; [reflexivity |].
  simpl. rewrite IH.
  destruct (a ++ b)%string eqn:Hab; [| reflexivity].
  destruct a; simpl in Hab; [contradiction | discriminate].
Qed.

Lemma string_app_assoc (a b c : string) :
  ((a ++ b) ++ c = a ++ (b ++ c))%string.
Proof.
  induction a as [| x a IH]; [reflexivity |].
  change (String x ((a ++ b) ++ c) = String x (a ++ (b ++ c)))%string.
  f_equal. exact IH.
Qed.

Section SetupProperties.

Variable py_repr : pyobj -> string.
Variable project_root : string.
Variable today : string.
Variable makedirs : string -> result unit.
Variable open_log : string -> result unit.

Local Abbreviation setup_of :=
  (Logging.setup py_repr project_root today makedirs open_log).
Local Abbreviation log_dir_of := (Logging.log_dir project_root).
Local Abbreviation log_file_of := (Logging.log_file project_root today).

(** X13.  When the directory and the file can be opened, the set-up ends with
    exactly two handlers on the logger, the file handler and the console
    handler, both at [DEBUG] and with the same format, whatever handlers
    the logger had before; the logger is at [DEBUG] and the two start-up
    records have been emitted. *)
Theorem setup_installs_two_handlers (st : Logging.state) :
  makedirs log_dir_of = Ret tt ->
  open_log log_file_of = Ret tt ->
  exists st',
    setup_of st = (Ret tt, st') /\
    Logging.lg_level st' = Some DEBUG /\
    Logging.lg_handlers st' =
      [ {| Logging.h_sink := Logging.FileSink log_file_of;
           Logging.h_level := DEBUG;
           Logging.h_format := Some Logging.log_format |};
        {| Logging.h_sink := Logging.ConsoleSink;
           Logging.h_level := DEBUG;
           Logging.h_format := Some Logging.log_format |} ] /\
    Logging.lg_records st' =
      Logging.lg_records st ++ [(DEBUG, "Logger initialization completed");
                                (INFO, "API logging system started")].
Proof.
  intros Hdir Hfile. unfold Logging.setup. rewrite Hdir, Hfile. simpl.
  rewrite remove_all_handlers_nil.
  unfold Logging.addHandler at 2.
  destruct (decide (_ ∈ [])) as [Hin | _]; [inversion Hin |].
  unfold Logging.addHandler.
  destruct (decide (_ ∈ _)) as [Hin | _].
  { simpl in Hin. apply list_elem_of_singleton in Hin. discriminate. }
  eexists. split; [reflexivity |]. simpl. rewrite <- app_assoc. auto.
Qed.

(** X14.  When the log file cannot be opened, the [except] of line 31 prints the
    error and goes on, and the set-up then raises [NameError] at line 41,
    where [file_handler] is read unbound; the logger is left without any
    handler. *)
Theorem setup_without_log_file_raises_name_error (st : Logging.state) (e : exn) :
  makedirs log_dir_of = Ret tt ->
  open_log log_file_of = Raise e ->
  exists st',
    setup_of st =
      (Raise (RaisedError "NameError" "name 'file_handler' is not defined"), st') /\
    Logging.lg_handlers st' = [] /\
    Logging.lg_records st' = Logging.lg_records st /\
    Logging.stdout st' =
      Logging.stdout st
        ++ [("Creating log file at: " ++ log_file_of)%string;
            ("Error creating file handler: " ++ exn_str py_repr e)%string].
Proof.
  intros Hdir Hfile. unfold Logging.setup. rewrite Hdir, Hfile. simpl.
  rewrite remove_all_handlers_nil.
  eexists. split; [reflexivity |]. simpl. rewrite <- app_assoc. auto.
Qed.

(** X15.  The log file of the day is [logs/api_calls_<date>.log] under the
    project root. *)
Theorem log_file_under_logs :
  project_root <> EmptyString ->
  Logging.ends_with_sep project_root = false ->
  log_file_of = (project_root ++ "/logs/api_calls_" ++ today ++ ".log")%string.
Proof.
  intros Hroot Hsep.
  unfold Logging.log_file, Logging.log_dir, Logging.path_join.
  cbn [Logging.starts_with_sep Ascii.eqb Bool.eqb andb].
  rewrite Hsep.
  destruct (String.eqb_spec project_root "") as [Heq | _]; [contradiction |].
  cbn [orb].
  rewrite ends_with_sep_app by discriminate. cbn [Logging.ends_with_sep Ascii.eqb Bool.eqb andb].
  destruct (String.eqb_spec (project_root ++ "/" ++ "logs") "") as [Heq | _].
  { destruct project_root; [contradiction | discriminate]. }
  cbn [orb]. rewrite !string_app_assoc. reflexivity.
Qed.

End SetupProperties.

(** ** The further properties at the fixtures *)

(** X1 at a transport that answers 200 with the content [pong]. *)
Lemma result_is_nested_content_witness :
  (exists w',
      get_chat_completion Fixtures.repr Fixtures.answers_pong Fixtures.no_jitter
        Fixtures.cfg Fixtures.messages PNone Fixtures.temperature Fixtures.fresh
      = Some (Ret (PStr "pong"), w'))
  /\ exists resp body,
       outcome (Fixtures.answers_pong 0%nat
                  (completion_request Fixtures.cfg Fixtures.messages PNone
                     Fixtures.temperature)) = Ret resp /\
       status_code resp = 200 /\
       json resp = Ret body /\
       nested_content body = Some (PStr "pong").
Proof.
  split; [eexists; reflexivity |].
  eapply (result_is_nested_content Fixtures.repr Fixtures.answers_pong
            Fixtures.no_jitter Fixtures.cfg Fixtures.messages PNone
            Fixtures.temperature Fixtures.fresh).
  - reflexivity.
  - discriminate.
Defined.

(** X2 at a transport whose answer has the number 42 as content. *)
Lemma result_by_content_kind_witness :
  nested_content (Fixtures.completion (PInt 42)) = Some (PInt 42)
  /\ exists w',
       get_chat_completion Fixtures.repr
         (Fixtures.always (Fixtures.ok (Fixtures.completion (PInt 42))))
         Fixtures.no_jitter Fixtures.cfg Fixtures.messages PNone
         Fixtures.temperature Fixtures.fresh
       = Some (Ret PNone, w').
Proof.
  split; [reflexivity |].
  apply (result_by_content_kind Fixtures.repr
           (Fixtures.always (Fixtures.ok (Fixtures.completion (PInt 42))))
           Fixtures.no_jitter Fixtures.cfg Fixtures.messages PNone
           Fixtures.temperature Fixtures.fresh
           {| status_code := 200; text := "<body>";
              json := Ret (Fixtures.completion (PInt 42)) |}
           (Fixtures.completion (PInt 42)) (PInt 42));
    reflexivity.
Defined.

(** X4 at a transport that answers 200 with the content [pong]. *)
Lemma response_line_bounded_witness :
  nested_content (Fixtures.completion (PStr "pong")) = Some (PStr "pong")
  /\ exists w' records shown dots,
       get_chat_completion Fixtures.repr Fixtures.answers_pong Fixtures.no_jitter
         Fixtures.cfg Fixtures.messages PNone Fixtures.temperature Fixtures.fresh
       = Some (Ret (PStr "pong"), w') /\
       log w' = log Fixtures.fresh ++ records
                  ++ [(DEBUG, MsgResponseContent shown dots)] /\
       String.prefix shown "pong" = true /\
       (String.length shown <= 500)%nat /\
       dots = (500 <? String.length "pong")%nat /\
       (dots = false -> shown = "pong").
Proof.
  split; [reflexivity |].
  apply (response_line_bounded Fixtures.repr Fixtures.answers_pong
           Fixtures.no_jitter Fixtures.cfg Fixtures.messages PNone
           Fixtures.temperature Fixtures.fresh
           {| status_code := 200; text := "<body>";
              json := Ret (Fixtures.completion (PStr "pong")) |}
           (Fixtures.completion (PStr "pong")) "pong");
    reflexivity.
Defined.

(** X5 at a transport that answers 200 with the content [pong]. *)
Lemma call_frame_witness :
  interrupted_by
    (Fixtures.answers_pong 0%nat
       (completion_request Fixtures.cfg Fixtures.messages PNone Fixtures.temperature))
  = None
  /\ exists v w' records,
       get_chat_completion Fixtures.repr Fixtures.answers_pong Fixtures.no_jitter
         Fixtures.cfg Fixtures.messages PNone Fixtures.temperature Fixtures.fresh
       = Some (Ret v, w') /\
       os_environ w' = os_environ Fixtures.fresh /\
       clock w' = clock Fixtures.fresh + 1 /\
       log w' = log Fixtures.fresh ++ records /\
       (4 <= List.length records <= 5)%nat.
Proof.
  split; [reflexivity |].
  apply (call_frame Fixtures.repr Fixtures.answers_pong Fixtures.no_jitter
           Fixtures.cfg Fixtures.messages PNone Fixtures.temperature
           Fixtures.fresh).
  reflexivity.
Defined.

(** X6 at two calls, the second with a model of its own, to a transport
    that raises [ConnectionError] on every call. *)
Lemma run_calls_one_request_each_witness :
  (forall n r, interrupted_by (Fixtures.unreachable n r) = None)
  /\ exists vs w',
       run_calls Fixtures.repr Fixtures.unreachable Fixtures.no_jitter Fixtures.cfg
         [(Fixtures.messages, PNone, Fixtures.temperature);
          (Fixtures.messages, PStr "openai/gpt-4o", PInt 0)]
         Fixtures.fresh
       = Some (Ret vs, w') /\
       List.length vs = 2%nat /\
       sent w' =
         [completion_request Fixtures.cfg Fixtures.messages PNone Fixtures.temperature;
          completion_request Fixtures.cfg Fixtures.messages (PStr "openai/gpt-4o")
            (PInt 0)] /\
       os_environ w' = os_environ Fixtures.fresh.
Proof.
  split; [intros n r; reflexivity |].
  apply (run_calls_one_request_each Fixtures.repr Fixtures.unreachable
           Fixtures.no_jitter Fixtures.cfg
           [(Fixtures.messages, PNone, Fixtures.temperature);
            (Fixtures.messages, PStr "openai/gpt-4o", PInt 0)]
           Fixtures.fresh).
  intros n r. reflexivity.
Defined.

(** X7 at a transport that answers 200 with an error object. *)
Lemma missing_choices_logged_witness :
  dict_get [("error", PDict [("code", PInt 429); ("message", PStr "rate limited")])]
           "choices" = None
  /\ exists w',
       get_chat_completion Fixtures.repr Fixtures.answers_error_body
         Fixtures.no_jitter Fixtures.cfg Fixtures.messages PNone
         Fixtures.temperature Fixtures.fresh
       = Some (Ret PNone, w') /\
       log w' = log Fixtures.fresh ++ preamble Fixtures.repr Fixtures.messages
                  ++ [(INFO, MsgApiCallSucceeded);
                      (ERROR, MsgCompletionError "'choices'")].
Proof.
  split; [reflexivity |].
  apply (missing_choices_logged Fixtures.repr Fixtures.answers_error_body
           Fixtures.no_jitter Fixtures.cfg Fixtures.messages PNone
           Fixtures.temperature Fixtures.fresh
           {| status_code := 200; text := "<body>"; json := Ret Fixtures.error_body |}
           [("error", PDict [("code", PInt 429); ("message", PStr "rate limited")])]);
    reflexivity.
Defined.

(** X8 at a transport that answers 200 with an empty list of choices. *)
Lemma empty_choices_logged_witness :
  dict_get [("choices", PList [])] "choices" = Some (PList [])
  /\ exists w',
       get_chat_completion Fixtures.repr
         (Fixtures.always (Fixtures.ok (PDict [("choices", PList [])])))
         Fixtures.no_jitter Fixtures.cfg Fixtures.messages PNone
         Fixtures.temperature Fixtures.fresh
       = Some (Ret PNone, w') /\
       log w' = log Fixtures.fresh ++ preamble Fixtures.repr Fixtures.messages
                  ++ [(INFO, MsgApiCallSucceeded);
                      (ERROR, MsgCompletionError "list index out of range")].
Proof.
  split; [reflexivity |].
  apply (empty_choices_logged Fixtures.repr
           (Fixtures.always (Fixtures.ok (PDict [("choices", PList [])])))
           Fixtures.no_jitter Fixtures.cfg Fixtures.messages PNone
           Fixtures.temperature Fixtures.fresh
           {| status_code := 200; text := "<body>";
              json := Ret (PDict [("choices", PList [])]) |}
           [("choices", PList [])]);
    reflexivity.
Defined.

(** X9 at two configurations with different keys and default models. *)
Lemma log_independent_of_config_witness :
  exists v w1 w2,
    get_chat_completion Fixtures.repr Fixtures.answers_pong Fixtures.no_jitter
      Fixtures.cfg Fixtures.messages PNone Fixtures.temperature Fixtures.fresh
    = Some (v, w1) /\
    get_chat_completion Fixtures.repr Fixtures.answers_pong Fixtures.no_jitter
      {| api_key := "sk-other"; default_model := "openai/gpt-4o" |}
      Fixtures.messages PNone Fixtures.temperature Fixtures.fresh
    = Some (v, w2) /\
    log w1 = log w2 /\ clock w1 = clock w2.
Proof.
  apply (log_independent_of_config Fixtures.repr Fixtures.answers_pong
           Fixtures.no_jitter Fixtures.cfg
           {| api_key := "sk-other"; default_model := "openai/gpt-4o" |}
           Fixtures.messages PNone Fixtures.temperature Fixtures.fresh).
  reflexivity.
Defined.

(** X11 with [OPENROUTER_MODEL] set to the empty string. *)
Lemma default_model_from_environment_witness :
  exists cfg w',
    init_module ".env" None
      {| os_environ := {[ "OPENROUTER_API_KEY" := "sk-live"; "OPENROUTER_MODEL" := "" ]};
         sent := []; clock := 0; log := [] |}
    = (Ret cfg, w') /\
    model_field (completion_request cfg Fixtures.messages PNone Fixtures.temperature)
    = Some (PStr "").
Proof.
  destruct (default_model_from_environment ".env" None
              {| os_environ := {[ "OPENROUTER_API_KEY" := "sk-live";
                                  "OPENROUTER_MODEL" := "" ]};
                 sent := []; clock := 0; log := [] |}
              "s"%char "k-live")
    as (cfg & w' & Hrun & Hmodel).
  - vm_compute. reflexivity.
  - exists cfg, w'. split; [exact Hrun |].
    rewrite (Hmodel Fixtures.messages Fixtures.temperature).
    vm_compute. reflexivity.
Defined.

(** X12 with an empty key in the file and a key in the environment. *)
Lemma dotenv_overrides_environment_witness :
  exists r w',
    init_module ".env" (Some {[ "OPENROUTER_API_KEY" := "" ]})
      {| os_environ := {[ "OPENROUTER_API_KEY" := "sk-live" ]};
         sent := []; clock := 0; log := [] |}
    = (r, w') /\
    os_environ w' !! "OPENROUTER_API_KEY" = Some "" /\
    r = Raise (ValueError "OPENROUTER_API_KEY not found in environment variables").
Proof.
  apply (dotenv_overrides_environment ".env" {[ "OPENROUTER_API_KEY" := "" ]}
           {| os_environ := {[ "OPENROUTER_API_KEY" := "sk-live" ]};
              sent := []; clock := 0; log := [] |} "").
  vm_compute. reflexivity.
Defined.

(** X13 on a logger that still carries a handler of an earlier import. *)
Lemma setup_installs_two_handlers_witness :
  exists st',
    Logging.setup Fixtures.repr "/srv/app" "20240131"
      (fun _ => Ret tt) (fun _ => Ret tt)
      {| Logging.lg_level := None;
         Logging.lg_handlers :=
           [ {| Logging.h_sink := Logging.ConsoleSink; Logging.h_level := WARNING;
                Logging.h_format := None |} ];
         Logging.stdout := []; Logging.lg_records := [] |}
    = (Ret tt, st') /\
    Logging.lg_level st' = Some DEBUG /\
    Logging.lg_handlers st' =
      [ {| Logging.h_sink := Logging.FileSink "/srv/app/logs/api_calls_20240131.log";
           Logging.h_level := DEBUG;
           Logging.h_format := Some Logging.log_format |};
        {| Logging.h_sink := Logging.ConsoleSink;
           Logging.h_level := DEBUG;
           Logging.h_format := Some Logging.log_format |} ] /\
    Logging.lg_records st' =
      [(DEBUG, "Logger initialization completed");
       (INFO, "API logging system started")].
Proof.
  apply (setup_installs_two_handlers Fixtures.repr "/srv/app" "20240131"
           (fun _ => Ret tt) (fun _ => Ret tt)
           {| Logging.lg_level := None;
              Logging.lg_handlers :=
                [ {| Logging.h_sink := Logging.ConsoleSink; Logging.h_level := WARNING;
                     Logging.h_format := None |} ];
              Logging.stdout := []; Logging.lg_records := [] |});
    reflexivity.
Defined.

(** X14 with a log file that cannot be opened. *)
Lemma setup_without_log_file_raises_name_error_witness :
  exists st',
    Logging.setup Fixtures.repr "/srv/app" "20240131"
      (fun _ => Ret tt)
      (fun _ => Raise (RaisedError "PermissionError" "Permission denied"))
      {| Logging.lg_level := None; Logging.lg_handlers := [];
         Logging.stdout := []; Logging.lg_records := [] |}
    = (Raise (RaisedError "NameError" "name 'file_handler' is not defined"), st') /\
    Logging.lg_handlers st' = [] /\
    Logging.lg_records st' = [] /\
    Logging.stdout st' =
      ["Creating log file at: /srv/app/logs/api_calls_20240131.log";
       "Error creating file handler: Permission denied"].
Proof.
  apply (setup_without_log_file_raises_name_error Fixtures.repr "/srv/app" "20240131"
           (fun _ => Ret tt)
           (fun _ => Raise (RaisedError "PermissionError" "Permission denied"))
           {| Logging.lg_level := None; Logging.lg_handlers := [];
              Logging.stdout := []; Logging.lg_records := [] |}
           (RaisedError "PermissionError" "Permission denied"));
    reflexivity.
Defined.

(** X15 for a project at [/srv/app] on the last day of January 2024. *)
Lemma log_file_under_logs_witness :
  Logging.log_file "/srv/app" "20240131" = "/srv/app/logs/api_calls_20240131.log".
Proof.
  apply (log_file_under_logs "/srv/app" "20240131"); [discriminate | reflexivity].
Defined.
